(** * or_rviz: marker synchronisation between OpenRAVE and the RViz
      interactive-marker server

    A shallow embedding of [JointMarker], [LinkMarker] and
    [SuperViewer::EnvironmentSync].

    Conventions of the embedding.
    - A C++ object is identified by its address ([addr]).  The kinematic
      model is a store: [weak_ptr::lock()] is a lookup in the store of live
      joints / links, and yields [None] once the object is gone.
    - The interactive-marker server is an external collaborator; it is
      represented by the sequence of calls it has received.
    - Dereferencing a null pointer aborts the running method: the method
      yields no result, and the calls already sent to the server remain.
    - [dReal] / [double] values are idealised as exact rationals. *)

From Stdlib Require Import ZArith QArith String List Bool Lia DecimalString.
From stdpp Require Import gmap list strings.

Local Open Scope string_scope.
Local Open Scope list_scope.

(** ** Numbers, vectors, transforms (OpenRAVE) and poses (ROS) *)

Definition dReal : Type := Q.
Definition addr : Type := positive.

(** [OpenRAVE::Vector]: four components; the three-argument constructor
    sets [w] to zero. *)
Record Vector : Type := mkVector { vx : dReal; vy : dReal; vz : dReal; vw : dReal }.

Arguments mkVector (vx vy vz vw)%_Q.

Definition Vector3d (x y z : dReal) : Vector := mkVector x y z 0.

Arguments Vector3d (x y z)%_Q.

(** [OpenRAVE::Transform] *)
Record Transform : Type := mkTransform { rot : Vector; trans : Vector }.

(** [geometry_msgs::Point], [Quaternion], [Pose], [Vector3] and
    [std_msgs::ColorRGBA]. *)
Record Point : Type := mkPoint { pt_x : dReal; pt_y : dReal; pt_z : dReal }.
Record Quaternion : Type :=
  mkQuaternion { q_x : dReal; q_y : dReal; q_z : dReal; q_w : dReal }.
Record Pose : Type := mkPose { position : Point; orientation : Quaternion }.
Record Vector3 : Type := mkVector3 { v3_x : dReal; v3_y : dReal; v3_z : dReal }.
Record ColorRGBA : Type :=
  mkColor { col_r : dReal; col_g : dReal; col_b : dReal; col_a : dReal }.

Arguments mkPoint (pt_x pt_y pt_z)%_Q.
Arguments mkQuaternion (q_x q_y q_z q_w)%_Q.
Arguments mkVector3 (v3_x v3_y v3_z)%_Q.
Arguments mkColor (col_r col_g col_b col_a)%_Q.

(** The functions of [or_conversions.h] and of [openrave/geometry.h] that the
    markers call, and the frame constant of the marker header.  Their code is
    not part of the translated sources, so they are parameters of the
    development. *)
Class ORConversions : Type := {
  toROSPose : Transform -> Pose;
  toORPose : Pose -> Transform;
  toROSColor : Vector -> ColorRGBA;
  toROSVector : Vector -> Vector3;
  transformLookat : Vector -> Vector -> Vector -> Transform;
  axisAngleFromQuat : Vector -> Vector;
  transform_inverse : Transform -> Transform;
  transform_mul : Transform -> Transform -> Transform;
  kDefaultWorldFrameId : string
}.

(** ** Messages of the marker service *)

(** [visualization_msgs::Marker]; a default-constructed message has type 0
    ([ARROW]). *)
Inductive MarkerType : Type := ARROW | CUBE | SPHERE | CYLINDER | MESH_RESOURCE.

Record Marker : Type := mkMarker {
  marker_pose : Pose;
  marker_color : ColorRGBA;
  marker_type : MarkerType;
  marker_scale : Vector3;
  mesh_resource : string;
  mesh_use_embedded_materials : bool
}.

Inductive OrientationMode : Type := INHERIT | FIXED | VIEW_FACING.
Inductive InteractionMode : Type :=
  NONE | MENU | BUTTON | MOVE_AXIS | MOVE_PLANE | ROTATE_AXIS.

Record InteractiveMarkerControl : Type := mkControl {
  control_name : string;
  control_orientation : Quaternion;
  orientation_mode : OrientationMode;
  interaction_mode : InteractionMode;
  always_visible : bool;
  markers : list Marker
}.

Record InteractiveMarker : Type := mkInteractiveMarker {
  header_frame_id : string;
  name : string;
  description : string;
  im_pose : Pose;
  scale : dReal;
  controls : list InteractiveMarkerControl
}.

Definition zero_pose : Pose := mkPose (mkPoint 0 0 0) (mkQuaternion 0 0 0 0).

(** Default-constructed messages. *)
Definition InteractiveMarkerControl_default : InteractiveMarkerControl :=
  mkControl "" (mkQuaternion 0 0 0 0) INHERIT NONE false [].

Definition InteractiveMarker_default : InteractiveMarker :=
  mkInteractiveMarker "" "" "" zero_pose 0%Q [].

(** [visualization_msgs::InteractiveMarkerFeedback] *)
Inductive EventType : Type :=
  KEEP_ALIVE | POSE_UPDATE | MENU_SELECT | BUTTON_CLICK | MOUSE_DOWN | MOUSE_UP.

Record InteractiveMarkerFeedback : Type :=
  mkFeedback { event_type : EventType; feedback_pose : Pose }.

(** ** The interactive-marker server: the calls it receives *)

Inductive ServerCall : Type :=
| insert_marker (m : InteractiveMarker)
| setPose (marker_name : string) (p : Pose)
| setCallback (marker_name : string)
| erase (marker_name : string).

Definition Server : Type := list ServerCall.

(** ** Methods: server state threaded through, abort on a null dereference *)

Definition M (A : Type) : Type := Server -> option A * Server.

Definition ret {A : Type} (a : A) : M A := fun srv => (Some a, srv).

Definition bind {A B : Type} (m : M A) (k : A -> M B) : M B :=
  fun srv =>
    match m srv with
    | (Some a, srv') => k a srv'
    | (None, srv') => (None, srv')
    end.

(** [server_->f(...)] *)
Definition call (c : ServerCall) : M unit := fun srv => (Some tt, srv ++ [c]).

(** [p->...] on a pointer obtained from [lock()] or from a container. *)
Definition deref {A : Type} (p : option A) : M A :=
  fun srv => (p, srv).

Notation "'do' x <- m ; k" := (bind m (fun x => k))
  (at level 10, x name, m at level 100, k at level 200, only parsing).

(** ** The kinematic model *)

Inductive JointType : Type :=
  JointNone | JointRevolute | JointPrismatic | JointSpecial (code : Z).

Definition is_revolute (t : JointType) : bool :=
  match t with JointRevolute => true | _ => false end.

Module Joint.
Record t : Type := mk {
  GetType : JointType;
  IsStatic : bool;
  IsMimic : bool;
  GetValue0 : dReal;
  GetAxis : Vector;
  GetAnchor : Vector;
  GetName : string;
  ParentName : string;
  EnvironmentId : Z
}.
End Joint.

Inductive GeometryType : Type :=
  GT_None | GT_Box | GT_Sphere | GT_Cylinder | GT_TriMesh | GT_Unlisted (code : Z).

(** Result of [Geometry::ComputeAABB]; [isnan(extents.x)] is kept as a flag
    because the rationals have no NaN. *)
Record AABB : Type := mkAABB { extents : Vector; extents_x_isnan : bool }.

Module Geometry.
Record t : Type := mk {
  IsVisible : bool;
  GetType : GeometryType;
  GetTransform : Transform;
  GetDiffuseColor : Vector;
  GetTransparency : dReal;
  GetRenderFilename : string;
  GetRenderScale : Vector;
  GetBoxExtents : Vector;
  GetSphereRadius : dReal;
  GetCylinderRadius : dReal;
  GetCylinderHeight : dReal;
  ComputeAABB : AABB
}.
End Geometry.

Module Link.
Record t : Type := mk {
  GetTransform : Transform;
  GetGeometries : list addr;
  GetName : string;
  ParentName : string;
  EnvironmentId : Z
}.
End Link.

(** The live objects at one instant.  A geometry listed by a link is kept
    alive by the [shared_ptr] in that list, hence [geometries] is total. *)
Record Environment : Type := mkEnvironment {
  joints : gmap addr Joint.t;
  links : gmap addr Link.t;
  geometries : addr -> Geometry.t
}.

(** [boost::format] with [%d]. *)
Definition format_d (z : Z) : string := NilZero.string_of_int (Z.to_int z).

(** ** JointMarker *)

Module JointMarker.

(** The object's fields; [server_] is the server threaded through [M]. *)
Record t : Type := mk {
  joint_ : addr;
  joint_pose_ : Transform;
  joint_initial_ : dReal;
  joint_delta_ : dReal;
  created_ : bool;
  force_update_ : bool;
  active_ : bool;
  marker_ : InteractiveMarker
}.

Definition set_joint_pose_ (v : Transform) (this : t) : t :=
  mk (joint_ this) v (joint_initial_ this) (joint_delta_ this)
     (created_ this) (force_update_ this) (active_ this) (marker_ this).

Definition set_joint_initial_ (v : dReal) (this : t) : t :=
  mk (joint_ this) (joint_pose_ this) v (joint_delta_ this)
     (created_ this) (force_update_ this) (active_ this) (marker_ this).

Definition set_joint_delta_ (v : dReal) (this : t) : t :=
  mk (joint_ this) (joint_pose_ this) (joint_initial_ this) v
     (created_ this) (force_update_ this) (active_ this) (marker_ this).

Definition set_created_ (v : bool) (this : t) : t :=
  mk (joint_ this) (joint_pose_ this) (joint_initial_ this) (joint_delta_ this)
     v (force_update_ this) (active_ this) (marker_ this).

Definition set_force_update_ (v : bool) (this : t) : t :=
  mk (joint_ this) (joint_pose_ this) (joint_initial_ this) (joint_delta_ this)
     (created_ this) v (active_ this) (marker_ this).

Definition set_active_ (v : bool) (this : t) : t :=
  mk (joint_ this) (joint_pose_ this) (joint_initial_ this) (joint_delta_ this)
     (created_ this) (force_update_ this) v (marker_ this).

Definition set_marker_ (v : InteractiveMarker) (this : t) : t :=
  mk (joint_ this) (joint_pose_ this) (joint_initial_ this) (joint_delta_ this)
     (created_ this) (force_update_ this) (active_ this) v.

Section Methods.
Context `{conv : !ORConversions}.

(** [joint_.lock()] *)
Definition joint (env : Environment) (this : t) : option Joint.t :=
  joints env !! joint_ this.

Definition GetJointPose (j : Joint.t) : Transform :=
  let pose := transformLookat (Vector3d 0 0 0) (Joint.GetAxis j) (Vector3d 1 0 0) in
  mkTransform (rot pose) (Joint.GetAnchor j).

Definition id (env : Environment) (this : t) : M string :=
  do j <- deref (joint env this);
  ret ("Environment[" +:+ format_d (Joint.EnvironmentId j)
       +:+ "].KinBody[" +:+ Joint.ParentName j
       +:+ "].Joint[" +:+ Joint.GetName j +:+ "]").

Definition pose (this : t) : Transform := joint_pose_ this.

Definition set_pose (pose : Transform) (this : t) : t :=
  if negb (active_ this) then set_joint_pose_ pose this else this.

Definition angle (this : t) : dReal :=
  (joint_initial_ this + joint_delta_ this)%Q.

Definition set_parent_frame (frame : string) (this : t) : t :=
  let m := marker_ this in
  set_force_update_ true
    (set_marker_ (mkInteractiveMarker frame (name m) (description m)
                    (im_pose m) (scale m) (controls m)) this).

(** The rotate handle built by the constructor. *)
Definition rotate_control : InteractiveMarkerControl :=
  mkControl "rotate" (mkQuaternion 0 1 0 1) INHERIT ROTATE_AXIS false [].

(** The constructor.  The member initialisers dereference [joint]; the
    body returns early for a joint that is not revolute, or static, or
    mimic. *)
Definition JointMarker (env : Environment) (joint_ptr : addr) : M t :=
  do j <- deref (joints env !! joint_ptr);
  let this :=
    mk joint_ptr (GetJointPose j) (Joint.GetValue0 j) 0%Q
       false true false InteractiveMarker_default in
  if negb (is_revolute (Joint.GetType j)) then ret this
  else if Joint.IsStatic j then ret this
  else if Joint.IsMimic j then ret this
  else
    do marker_name <- id env this;
    let marker :=
      mkInteractiveMarker kDefaultWorldFrameId marker_name ""
        (toROSPose (pose this)) 0.25%Q
        (controls InteractiveMarker_default ++ [rotate_control]) in
    let this := set_marker_ marker this in
    do _ <- call (insert_marker (marker_ this));
    do _ <- call (setCallback (name (marker_ this)));
    ret this.

(** The destructor. *)
Definition destroy (this : t) : M unit :=
  call (erase (name (marker_ this))).

Definition EnvironmentSync (env : Environment) (this : t) : M (bool * t) :=
  (* Re-create the marker, if necessary. *)
  do this <- (if force_update_ this
              then do _ <- call (insert_marker (marker_ this));
                   ret (set_force_update_ false this)
              else ret this);
  (* Update pose. *)
  do _ <- call (setPose (name (marker_ this)) (toROSPose (pose this)));
  do this <- (if negb (active_ this)
              then do j <- deref (joint env this);
                   ret (set_joint_delta_ 0%Q
                          (set_joint_initial_ (Joint.GetValue0 j) this))
              else ret this);
  let this := set_created_ true this in
  ret (false, this).

Definition JointCallback (feedback : InteractiveMarkerFeedback) (this : t) : t :=
  match event_type feedback with
  | MOUSE_DOWN => set_active_ true this
  | MOUSE_UP => set_active_ false this
  | POSE_UPDATE =>
      let pose :=
        transform_mul (transform_inverse (pose this))
                      (toORPose (feedback_pose feedback)) in
      let axis_angle := axisAngleFromQuat (rot pose) in
      set_joint_delta_ (- vz axis_angle)%Q this
  | _ => this
  end.

(** What can happen to a marker after construction: a tick of the owner,
    a setter called by the owner, or a feedback event from the server. *)
Inductive Op : Type :=
| op_EnvironmentSync (env : Environment)
| op_set_pose (pose : Transform)
| op_set_parent_frame (frame : string)
| op_JointCallback (feedback : InteractiveMarkerFeedback).

Definition step (op : Op) (this : t) : M t :=
  match op with
  | op_EnvironmentSync env =>
      do r <- EnvironmentSync env this; ret (snd r)
  | op_set_pose p => ret (set_pose p this)
  | op_set_parent_frame f => ret (set_parent_frame f this)
  | op_JointCallback fb => ret (JointCallback fb this)
  end.

Fixpoint run (ops : list Op) (this : t) : M t :=
  match ops with
  | [] => ret this
  | op :: ops' => do this' <- step op this; run ops' this'
  end.

Definition is_mouse_up (op : Op) : bool :=
  match op with
  | op_JointCallback fb =>
      match event_type fb with MOUSE_UP => true | _ => false end
  | _ => false
  end.

Definition is_pose_update (op : Op) : bool :=
  match op with
  | op_JointCallback fb =>
      match event_type fb with POSE_UPDATE => true | _ => false end
  | _ => false
  end.

End Methods.
End JointMarker.

(** ** LinkMarker *)

(** [RenderMode::Type]; the enumeration is declared in a header that is not
    among the translated sources: visual or collision geometry. *)
Inductive RenderMode : Type := kVisual | kCollision.

Definition kWorldFrameId : string := "/world".

(** A value of [geometry_markers_]: [NULL], or the address
    [&visual_control_->markers.back()] taken right after a [push_back].
    That address points into the storage the vector had at that moment; a
    later [push_back] may move the storage and leave the address dangling,
    and the code never dereferences or compares a stored address.  The
    embedding therefore keeps of a stored address only that it is not null,
    and says nothing of what it points at. *)
Inductive MarkerAddress : Type := NULL | address_of_back.

Module LinkMarker.

(** [geometry_markers_] maps the address of a geometry to [NULL] or to the
    address that the last element of [visual_control_->markers] had when
    the primitive of that geometry was pushed. *)
Record t : Type := mk {
  link_ : addr;
  is_ghost_ : bool;
  interactive_marker_ : InteractiveMarker;
  render_mode_ : RenderMode;
  geometry_markers_ : gmap addr MarkerAddress
}.

Definition set_interactive_marker_ (v : InteractiveMarker) (this : t) : t :=
  mk (link_ this) (is_ghost_ this) v (render_mode_ this) (geometry_markers_ this).

Definition set_render_mode_ (v : RenderMode) (this : t) : t :=
  mk (link_ this) (is_ghost_ this) (interactive_marker_ this) v
     (geometry_markers_ this).

Definition set_geometry_markers_ (v : gmap addr MarkerAddress) (this : t) : t :=
  mk (link_ this) (is_ghost_ this) (interactive_marker_ this)
     (render_mode_ this) v.

Definition set_controls (cs : list InteractiveMarkerControl)
    (m : InteractiveMarker) : InteractiveMarker :=
  mkInteractiveMarker (header_frame_id m) (name m) (description m)
    (im_pose m) (scale m) cs.

Definition set_markers (ms : list Marker)
    (c : InteractiveMarkerControl) : InteractiveMarkerControl :=
  mkControl (control_name c) (control_orientation c) (orientation_mode c)
    (interaction_mode c) (always_visible c) ms.

(** [visual_control_] points at [interactive_marker_->controls[0]]. *)
Definition visual_control_ (this : t) : option InteractiveMarkerControl :=
  controls (interactive_marker_ this) !! 0%nat.

Definition store_visual_control_ (c : InteractiveMarkerControl) (this : t) : t :=
  let m := interactive_marker_ this in
  set_interactive_marker_ (set_controls (<[0%nat := c]> (controls m)) m) this.

Definition kGhostColor : Vector := mkVector 0 1 0 0.2.

Section Methods.
Context `{conv : !ORConversions}.

(** [link_.lock()] *)
Definition link (env : Environment) (this : t) : option Link.t :=
  links env !! link_ this.

Definition id (env : Environment) (this : t) : M string :=
  do l <- deref (link env this);
  ret ("Environment[" +:+ format_d (Link.EnvironmentId l)
       +:+ "].KinBody[" +:+ Link.ParentName l
       +:+ "].Link[" +:+ Link.GetName l +:+ "]").

(** The constructor.  Nothing is sent to the server. *)
Definition LinkMarker (env : Environment) (link_ptr : addr) (is_ghost : bool)
    : M t :=
  do l <- deref (links env !! link_ptr);
  let this := mk link_ptr is_ghost InteractiveMarker_default kVisual ∅ in
  do marker_name <- id env this;
  let marker :=
    mkInteractiveMarker kWorldFrameId marker_name ""
      (toROSPose (Link.GetTransform l)) 0.25%Q
      (resize 1 InteractiveMarkerControl_default
         (controls InteractiveMarker_default)) in
  let this := set_interactive_marker_ marker this in
  (* Show the visual geometry. *)
  do c <- deref (visual_control_ this);
  do control_id <- id env this;
  let q := control_orientation c in
  let c :=
    mkControl (control_id +:+ ".Geometry[visual]")
      (mkQuaternion (q_x q) (q_y q) (q_z q) 1) INHERIT BUTTON true (markers c) in
  ret (store_visual_control_ c this).

Definition destroy (this : t) : M unit :=
  call (erase (name (interactive_marker_ this))).

Definition SetRenderMode (mode : RenderMode) (this : t) : t :=
  set_render_mode_ mode this.

(** [CreateGeometry(GeometryPtr)]: the primitive of one geometry, or a null
    [MarkerPtr]. *)
Definition CreateGeometry_geometry (is_ghost : bool) (geometry : Geometry.t)
    : option Marker :=
  let pose := toROSPose (Geometry.GetTransform geometry) in
  let color :=
    if is_ghost then toROSColor kGhostColor
    else
      let c := toROSColor (Geometry.GetDiffuseColor geometry) in
      mkColor (col_r c) (col_g c) (col_b c)
              (1 - Geometry.GetTransparency geometry) in
  (* If a render filename is specified, ignore the rest of the geometry. *)
  let render_mesh_path := Geometry.GetRenderFilename geometry in
  let render_mesh_path :=
    if String.prefix "__norenderif__" render_mesh_path then ""
    else render_mesh_path in
  if negb (String.eqb render_mesh_path "") then
    Some (mkMarker pose color MESH_RESOURCE
            (toROSVector (Geometry.GetRenderScale geometry))
            ("file://" +:+ render_mesh_path) (negb is_ghost))
  else
    (* Otherwise, render the underlying geometry type. *)
    match Geometry.GetType geometry with
    | GT_None => None
    | GT_Box =>
        Some (mkMarker pose color CUBE
                (toROSVector (Geometry.GetBoxExtents geometry)) "" false)
    | GT_Sphere =>
        let sphere_radius := Geometry.GetSphereRadius geometry in
        Some (mkMarker pose color SPHERE
                (mkVector3 sphere_radius sphere_radius sphere_radius) "" false)
    | GT_Cylinder =>
        let cylinder_radius := Geometry.GetCylinderRadius geometry in
        let cylinder_height := Geometry.GetCylinderHeight geometry in
        Some (mkMarker pose color CYLINDER
                (mkVector3 cylinder_radius cylinder_radius cylinder_height)
                "" false)
    | GT_TriMesh => None
    | GT_Unlisted _ => None
    end.

(** The loop of [CreateGeometry()], on the vector of primitives and the
    map, both emptied by the caller. *)
Fixpoint CreateGeometry_loop (env : Environment) (is_ghost : bool)
    (gs : list addr) (ms : list Marker) (gm : gmap addr MarkerAddress)
    : list Marker * gmap addr MarkerAddress :=
  match gs with
  | [] => (ms, gm)
  | geometry :: gs' =>
      if negb (Geometry.IsVisible (geometries env geometry))
      then CreateGeometry_loop env is_ghost gs' ms gm
      else
        match CreateGeometry_geometry is_ghost (geometries env geometry) with
        | Some new_marker =>
            let ms := ms ++ [new_marker] in
            CreateGeometry_loop env is_ghost gs' ms
              (<[geometry := address_of_back]> gm)
        | None =>
            (* This geometry is empty: insert a dummy marker. *)
            CreateGeometry_loop env is_ghost gs' ms (<[geometry := NULL]> gm)
        end
  end.

Definition CreateGeometry (env : Environment) (this : t) : M t :=
  do c <- deref (visual_control_ this);
  let this := store_visual_control_ (set_markers [] c) this in
  let this := set_geometry_markers_ ∅ this in
  do l <- deref (link env this);
  let r :=
    CreateGeometry_loop env (is_ghost_ this) (Link.GetGeometries l)
      [] (geometry_markers_ this) in
  ret (set_geometry_markers_ (snd r)
         (store_visual_control_ (set_markers (fst r) c) this)).

(** The change-detection loop of [EnvironmentSync]: it leaves at the first
    geometry for which visibility and absence from the map agree. *)
Fixpoint scan_geometries (env : Environment) (gm : gmap addr MarkerAddress)
    (gs : list addr) (is_changed : bool) : bool :=
  match gs with
  | [] => is_changed
  | geometry :: gs' =>
      let is_missing :=
        match gm !! geometry with None => true | Some _ => false end in
      let is_visible := Geometry.IsVisible (geometries env geometry) in
      let is_changed := is_changed || Bool.eqb is_visible is_missing in
      if is_changed then is_changed
      else scan_geometries env gm gs' is_changed
  end.

Definition EnvironmentSync (env : Environment) (this : t) : M t :=
  do l <- deref (link env this);
  let is_changed :=
    scan_geometries env (geometry_markers_ this) (Link.GetGeometries l) false in
  if is_changed then
    do this <- CreateGeometry env this;
    do _ <- call (insert_marker (interactive_marker_ this));
    ret this
  else
    (* Incrementally update the marker's pose. *)
    do _ <- call (setPose (name (interactive_marker_ this))
                          (toROSPose (Link.GetTransform l)));
    ret this.

End Methods.
End LinkMarker.

(** ** SuperViewer *)

Module SuperViewer.

(** A body and its links as [GetBodies] / [GetLinks] return them; the
    geometry pointers of a link are resolved by [geometries]. *)
Record KinBody : Type := mkKinBody { GetLinks : list Link.t }.

(** The message handed to [ShapeMarker::setMessage] ([action] is [ADD],
    the stamp is zero). *)
Record MarkerMsg : Type := mkMarkerMsg {
  msg_frame_id : string;
  msg_color : ColorRGBA;
  msg_scale : Vector3;
  msg_position : Point;
  msg_orientation : Quaternion;
  msg_type : MarkerType
}.

(** The viewer's side of the scene: the recursion depth of the environment
    mutex as this viewer holds it, the displays created, and the shape
    markers created so far, each with the geometry it was made for. *)
Record t : Type := mk {
  mutex_held : nat;
  displays : nat;
  shape_markers : list (addr * MarkerMsg)
}.

(** How a loop body ends: it falls through to the next iteration (also by
    [continue]), it leaves the loop by [break], or it throws. *)
Inductive Flow : Type := Continue | Break | Throw.

(** [for (size_t i = first; i < first + count; i++) body]; the result is
    [Throw] when an iteration threw and [Continue] otherwise. *)
Fixpoint for_range {St : Type} (count first : nat)
    (body : nat -> St -> Flow * St) (s : St) : Flow * St :=
  match count with
  | O => (Continue, s)
  | S count' =>
      match body first s with
      | (Continue, s') => for_range count' (S first) body s'
      | (Break, s') => (Continue, s')
      | (Throw, s') => (Throw, s')
      end
  end.

(** [vector::at]: an index out of range throws. *)
Definition at_ {A : Type} (v : list A) (i : nat) : option A := v !! i.

Section Methods.
Context `{conv : !ORConversions}.

Definition markerMsg (l : Link.t) (geometry : Geometry.t) : MarkerMsg :=
  let aabb := Geometry.ComputeAABB geometry in
  let tf := transform_mul (Link.GetTransform l) (Geometry.GetTransform geometry) in
  let translation := trans tf in
  let rotation := rot tf in
  mkMarkerMsg "world"
    (mkColor (vx (Geometry.GetDiffuseColor geometry))
             (vy (Geometry.GetDiffuseColor geometry))
             (vz (Geometry.GetDiffuseColor geometry)) 1)
    (mkVector3 (vx (extents aabb)) (vy (extents aabb)) (vz (extents aabb)))
    (mkPoint (vx translation) (vy translation) (vz translation))
    (mkQuaternion (vx rotation) (vy rotation) (vz rotation) (vw rotation))
    CUBE.

(** Body of the loop over [k]. *)
Definition geometry_body (env : Environment) (l : Link.t) (geoms : list addr)
    (k : nat) (this : t) : Flow * t :=
  match at_ geoms k with
  | None => (Throw, this)
  | Some geometry =>
      let g := geometries env geometry in
      if extents_x_isnan (Geometry.ComputeAABB g) then (Continue, this)
      else
        (Break,
         mk (mutex_held this) (displays this)
            (shape_markers this ++ [(geometry, markerMsg l g)]))
  end.

(** Body of the loop over [j]; the link is read at index [i]. *)
Definition link_body (env : Environment) (links : list Link.t) (i : nat)
    (j : nat) (this : t) : Flow * t :=
  match at_ links i with
  | None => (Throw, this)
  | Some l =>
      let geoms := Link.GetGeometries l in
      match for_range (length geoms) 0 (geometry_body env l geoms) this with
      | (Throw, this') => (Throw, this')
      | (_, this') => (Break, this')
      end
  end.

(** Body of the loop over [i]. *)
Definition body_body (env : Environment) (bodies : list KinBody)
    (i : nat) (this : t) : Flow * t :=
  match at_ bodies i with
  | None => (Throw, this)
  | Some body =>
      let links := GetLinks body in
      match for_range (length links) 0 (link_body env links i) this with
      | (Throw, this') => (Throw, this')
      | (_, this') => (Break, this')
      end
  end.

(** [EnvironmentSync]; [display_created] tells whether [createDisplay]
    returned a display. *)
Definition EnvironmentSync (env : Environment) (bodies : list KinBody)
    (display_created : bool) (this : t) : Flow * t :=
  let this := mk (S (mutex_held this)) (displays this) (shape_markers this) in
  if negb display_created then (Continue, this)
  else
    let this := mk (mutex_held this) (S (displays this)) (shape_markers this) in
    match for_range (length bodies) 0 (body_body env bodies) this with
    | (Throw, this') => (Throw, this')
    | (_, this') =>
        (Continue,
         mk (pred (mutex_held this')) (displays this') (shape_markers this'))
    end.

(** The geometries the tick made a shape marker for. *)
Definition processed (before after : t) : list addr :=
  map fst (drop (length (shape_markers before)) (shape_markers after)).

(** All geometries of all links of all bodies. *)
Definition all_geometries (bodies : list KinBody) : list addr :=
  concat (map (fun b => concat (map Link.GetGeometries (GetLinks b))) bodies).

End Methods.
End SuperViewer.

(** ** Example scenes *)

(** A concrete choice of the external functions, to run the methods on
    examples: the conversions copy the components, the geometry functions
    are rational stand-ins. *)
Definition plain_conversions : ORConversions := {|
  toROSPose tf :=
    mkPose (mkPoint (vx (trans tf)) (vy (trans tf)) (vz (trans tf)))
           (mkQuaternion (vy (rot tf)) (vz (rot tf)) (vw (rot tf)) (vx (rot tf)));
  toORPose p :=
    mkTransform
      (mkVector (q_w (orientation p)) (q_x (orientation p))
                (q_y (orientation p)) (q_z (orientation p)))
      (mkVector (pt_x (position p)) (pt_y (position p)) (pt_z (position p)) 0);
  toROSColor v := mkColor (vx v) (vy v) (vz v) (vw v);
  toROSVector v := mkVector3 (vx v) (vy v) (vz v);
  transformLookat _ dir _ := mkTransform dir (mkVector 0 0 0 0);
  axisAngleFromQuat q := mkVector (vy q) (vz q) (vw q) 0;
  transform_inverse tf :=
    mkTransform (mkVector (vx (rot tf)) (- vy (rot tf)) (- vz (rot tf)) (- vw (rot tf)))
                (mkVector (- vx (trans tf)) (- vy (trans tf)) (- vz (trans tf)) 0);
  transform_mul a b :=
    mkTransform (rot b)
      (mkVector (vx (trans a) + vx (trans b)) (vy (trans a) + vy (trans b))
                (vz (trans a) + vz (trans b)) 0);
  kDefaultWorldFrameId := "/world"
|}.

Definition identity_transform : Transform :=
  mkTransform (mkVector 1 0 0 0) (mkVector 0 0 0 0).

Definition box_geometry (visible : bool) : Geometry.t :=
  Geometry.mk visible GT_Box identity_transform (mkVector 1 0 0 1) 0%Q ""
    (mkVector 1 1 1 0) (mkVector 1 2 3 0) 0%Q 0%Q 0%Q
    (mkAABB (mkVector 1 2 3 0) false).

Definition trimesh_geometry (visible : bool) : Geometry.t :=
  Geometry.mk visible GT_TriMesh identity_transform (mkVector 1 0 0 1) 0%Q ""
    (mkVector 1 1 1 0) (mkVector 0 0 0 0) 0%Q 0%Q 0%Q
    (mkAABB (mkVector 1 1 1 0) false).

Definition sample_joint (ty : JointType) : Joint.t :=
  Joint.mk ty false false 0.5%Q (mkVector 0 0 1 0) (mkVector 1 2 3 0)
    "elbow" "arm" 1.

Definition sample_link (geoms : list addr) : Link.t :=
  Link.mk identity_transform geoms "forearm" "arm" 1.

(** Scene with one joint at address 10 and one link at address 20 whose
    geometries 1 and 2 are a box and a triangle mesh. *)
Definition sample_env (ty : JointType) (box_visible mesh_visible : bool)
    : Environment :=
  mkEnvironment {[ 10%positive := sample_joint ty ]}
    {[ 20%positive := sample_link [1%positive; 2%positive] ]}
    (fun a => if (a =? 1)%positive then box_geometry box_visible
              else trimesh_geometry mesh_visible).

(** The same scene after the joint and the link are gone. *)
Definition expired_env : Environment :=
  mkEnvironment ∅ ∅ (fun _ => box_geometry true).

(** A joint marker constructed on the joint of the sample scene. *)
Definition blank_joint_marker : JointMarker.t :=
  JointMarker.mk 10%positive identity_transform 0%Q 0%Q false false false
    InteractiveMarker_default.

Definition sample_joint_marker (ty : JointType) : JointMarker.t :=
  default blank_joint_marker
    (fst (JointMarker.JointMarker (conv := plain_conversions)
            (sample_env ty true false) 10%positive [])).

(** The same marker after a mouse-down event. *)
Definition dragged_joint_marker : JointMarker.t :=
  JointMarker.JointCallback (conv := plain_conversions)
    (mkFeedback MOUSE_DOWN zero_pose) (sample_joint_marker JointRevolute).

(** A link marker constructed on the link of the sample scene, and the same
    marker after a first tick in the scene where the box is visible and the
    mesh is hidden. *)
Definition blank_link_marker : LinkMarker.t :=
  LinkMarker.mk 20%positive false InteractiveMarker_default kVisual ∅.

Definition sample_link_marker : LinkMarker.t :=
  default blank_link_marker
    (fst (LinkMarker.LinkMarker (conv := plain_conversions)
            (sample_env JointRevolute true false) 20%positive false [])).

Definition synced_link_marker : LinkMarker.t :=
  default blank_link_marker
    (fst (LinkMarker.EnvironmentSync (conv := plain_conversions)
            (sample_env JointRevolute true false) sample_link_marker [])).

(** Scene for the viewer: every geometry is a visible box. *)
Definition all_boxes_env : Environment :=
  mkEnvironment ∅ ∅ (fun _ => box_geometry true).

Definition two_bodies : list SuperViewer.KinBody :=
  [SuperViewer.mkKinBody [sample_link [1; 2]%positive];
   SuperViewer.mkKinBody [sample_link [3%positive]]].

(** ** Vocabulary of the statements *)

(** The calls one [JointMarker::EnvironmentSync] sends, in order. *)
Definition joint_sync_calls `{conv : !ORConversions} (this : JointMarker.t)
    : list ServerCall :=
  (if JointMarker.force_update_ this
   then [insert_marker (JointMarker.marker_ this)] else [])
  ++ [setPose (name (JointMarker.marker_ this))
              (toROSPose (JointMarker.pose this))].

(** The fields of a [JointMarker] after a tick that returned; [live] is the
    value of the joint, read only when no drag is in progress. *)
Definition joint_synced (live : dReal) (this : JointMarker.t) : JointMarker.t :=
  JointMarker.mk (JointMarker.joint_ this) (JointMarker.joint_pose_ this)
    (if JointMarker.active_ this then JointMarker.joint_initial_ this else live)
    (if JointMarker.active_ this then JointMarker.joint_delta_ this else 0%Q)
    true false (JointMarker.active_ this) (JointMarker.marker_ this).

(** A joint the constructor gives a handle to. *)
Definition controllable (j : Joint.t) : bool :=
  is_revolute (Joint.GetType j) && negb (Joint.IsStatic j)
  && negb (Joint.IsMimic j).

(** [geometry->IsVisible()] for a geometry pointer. *)
Definition visible (env : Environment) (geometry : addr) : bool :=
  Geometry.IsVisible (geometries env geometry).

(** A geometry has renderable content when it names a render mesh that is
    not suppressed, or is a box, a sphere or a cylinder. *)
Definition has_renderable_content (g : Geometry.t) : bool :=
  (negb (String.eqb (Geometry.GetRenderFilename g) "")
   && negb (String.prefix "__norenderif__" (Geometry.GetRenderFilename g)))
  || match Geometry.GetType g with
     | GT_Box | GT_Sphere | GT_Cylinder => true
     | _ => false
     end.

(** The visible geometries with renderable content, in the order of the
    link's list. *)
Definition rendered (env : Environment) (gs : list addr) : list addr :=
  List.filter
    (fun g => visible env g && has_renderable_content (geometries env g)) gs.

(** The map agrees with the scene: a listed geometry has an entry exactly
    when it is visible. *)
Definition in_sync (env : Environment) (gm : gmap addr MarkerAddress)
    (gs : list addr) : Prop :=
  forall g, In g gs -> (visible env g = true <-> is_Some (gm !! g)).

(** An entry of the map is faithful: an address was stored for a geometry
    that yields a primitive, the null pointer for a geometry that yields
    none. *)
Definition entry_faithful `{conv : !ORConversions} (env : Environment) (ghost : bool)
    (gm : gmap addr MarkerAddress) (g : addr) : Prop :=
  match gm !! g with
  | Some address_of_back =>
      is_Some (LinkMarker.CreateGeometry_geometry ghost (geometries env g))
  | Some NULL =>
      LinkMarker.CreateGeometry_geometry ghost (geometries env g) = None
  | None => True
  end.

(** [visual_control_] points at an existing control. *)
Definition wf (this : LinkMarker.t) : Prop :=
  is_Some (LinkMarker.visual_control_ this).

(** The object [CreateGeometry()] leaves behind, given the control that
    [visual_control_] points at and the link. *)
Definition recreated `{conv : !ORConversions} (env : Environment) (this : LinkMarker.t)
    (c : InteractiveMarkerControl) (l : Link.t) : LinkMarker.t :=
  let cleared :=
    LinkMarker.set_geometry_markers_ ∅
      (LinkMarker.store_visual_control_ (LinkMarker.set_markers [] c) this) in
  let r :=
    LinkMarker.CreateGeometry_loop env (LinkMarker.is_ghost_ this)
      (Link.GetGeometries l) [] ∅ in
  LinkMarker.set_geometry_markers_ (snd r)
    (LinkMarker.store_visual_control_ (LinkMarker.set_markers (fst r) c) cleared).

(** The outcome of the change-detection loop of a tick. *)
Definition is_changed (env : Environment) (this : LinkMarker.t) (l : Link.t)
    : bool :=
  LinkMarker.scan_geometries env (LinkMarker.geometry_markers_ this)
    (Link.GetGeometries l) false.

(** The shape markers of [after] are those of [before] and at most one
    more. *)
Definition at_most_one_more (before after : SuperViewer.t) : Prop :=
  exists extra,
    SuperViewer.shape_markers after = SuperViewer.shape_markers before ++ extra
    /\ length extra <= 1.

(** ** Vocabulary of the further properties *)

(** The marker a call to the server is about. *)
Definition call_name (c : ServerCall) : string :=
  match c with
  | insert_marker m => name m
  | setPose n _ => n
  | setCallback n => n
  | erase n => n
  end.

(** The identifier strings, as [id()] formats them. *)
Definition joint_id_string (environment_id : Z) (body joint_name : string)
    : string :=
  "Environment[" +:+ format_d environment_id
  +:+ "].KinBody[" +:+ body +:+ "].Joint[" +:+ joint_name +:+ "]".

Definition link_id_string (environment_id : Z) (body link_name : string)
    : string :=
  "Environment[" +:+ format_d environment_id
  +:+ "].KinBody[" +:+ body +:+ "].Link[" +:+ link_name +:+ "]".

(** The primitives of the visible listed geometries, in the order of the
    list; a geometry without renderable content contributes none. *)
Definition primitives_of `{conv : !ORConversions} (env : Environment)
    (ghost : bool) (gs : list addr) : list Marker :=
  omap (fun g => if visible env g
                 then LinkMarker.CreateGeometry_geometry ghost (geometries env g)
                 else None) gs.

(** The render filename with the suppressing prefix taken as no filename. *)
Definition effective_render_filename (g : Geometry.t) : string :=
  if String.prefix "__norenderif__" (Geometry.GetRenderFilename g) then ""
  else Geometry.GetRenderFilename g.

(** The same geometry under another render filename. *)
Definition with_render_filename (f : string) (g : Geometry.t) : Geometry.t :=
  Geometry.mk (Geometry.IsVisible g) (Geometry.GetType g)
    (Geometry.GetTransform g) (Geometry.GetDiffuseColor g)
    (Geometry.GetTransparency g) f (Geometry.GetRenderScale g)
    (Geometry.GetBoxExtents g) (Geometry.GetSphereRadius g)
    (Geometry.GetCylinderRadius g) (Geometry.GetCylinderHeight g)
    (Geometry.ComputeAABB g).

(** The geometry the viewer draws: the first geometry of the first link of
    the first body whose box has a number as first extent. *)
Definition first_target (env : Environment) (bodies : list SuperViewer.KinBody)
    : option (Link.t * addr) :=
  match bodies with
  | [] => None
  | body :: _ =>
      match SuperViewer.GetLinks body with
      | [] => None
      | l :: _ =>
          option_map (pair l)
            (List.find
               (fun g => negb (extents_x_isnan
                                 (Geometry.ComputeAABB (geometries env g))))
               (Link.GetGeometries l))
      end
  end.

Definition marker_for `{conv : !ORConversions} (env : Environment)
    (target : option (Link.t * addr)) : list (addr * SuperViewer.MarkerMsg) :=
  match target with
  | Some (l, g) => [(g, SuperViewer.markerMsg l (geometries env g))]
  | None => []
  end.

(** [n] ticks of the viewer's timer in one scene, each creating its
    display. *)
Fixpoint ticks `{conv : !ORConversions} (n : nat) (env : Environment)
    (bodies : list SuperViewer.KinBody) (this : SuperViewer.t) : SuperViewer.t :=
  match n with
  | O => this
  | S n' =>
      ticks n' env bodies (snd (SuperViewer.EnvironmentSync env bodies true this))
  end.

(** ** LinkMarker::InferManipulator *)

Module Manipulator.
Record t : Type := mk {
  GetBase : addr;
  GetEndEffector : addr;
  GetChildLinks : list addr;
  GetName : string
}.
End Manipulator.

(** A method with a loop that need not end: it returns, aborts (null
    dereference or failed assertion), runs into undefined behaviour of
    another kind (a formatted print with fewer arguments than conversions),
    or is still running when the given number of loop iterations is used
    up. *)
Inductive Run (A : Type) : Type :=
| Returned (a : A)
| Aborted
| Undefined
| OutOfFuel.

Arguments Returned {A} a.
Arguments Aborted {A}.
Arguments Undefined {A}.
Arguments OutOfFuel {A}.

(** The loop [while (curr_link != base_link)]: it walks from the end
    effector towards the root along the single parent of each link. *)
Fixpoint search_chain (fuel : nat) (GetParentLinks : addr -> list addr)
    (link base_link curr_link : addr) : Run bool :=
  match fuel with
  | O => OutOfFuel
  | S fuel' =>
      if (curr_link =? base_link)%positive then Returned false
      else if (curr_link =? link)%positive then Returned true
      else
        match GetParentLinks curr_link with
        | [parent] =>
            search_chain fuel' GetParentLinks link base_link parent
        | _ => Aborted
        end
  end.






(** ** Further example scenes *)

Definition named_joint (body joint_name : string) : Joint.t :=
  Joint.mk JointRevolute false false 0%Q (mkVector 0 0 1 0) (mkVector 0 0 0 0)
    joint_name body 1.

(** Scene with two joints, at addresses 10 and 11, and the sample link. *)
Definition two_joints_env (body1 name1 body2 name2 : string) : Environment :=
  mkEnvironment
    {[ 10%positive := named_joint body1 name1;
       11%positive := named_joint body2 name2 ]}
    {[ 20%positive := sample_link [1%positive; 2%positive] ]}
    (fun _ => box_geometry true).

Definition joint_marker_at (a : addr) : JointMarker.t :=
  JointMarker.mk a identity_transform 0%Q 0%Q false false false
    InteractiveMarker_default.

(** The sample link marker as a ghost. *)
Definition ghost_link_marker : LinkMarker.t :=
  default blank_link_marker
    (fst (LinkMarker.LinkMarker (conv := plain_conversions)
            (sample_env JointRevolute true false) 20%positive true [])).

(** The sample scene after the mesh was taken off the link's list. *)
Definition shorter_env : Environment :=
  mkEnvironment {[ 10%positive := sample_joint JointRevolute ]}
    {[ 20%positive := sample_link [1%positive] ]}
    (fun a => if (a =? 1)%positive then box_geometry true
              else trimesh_geometry false).

(** A robot arm: links 20 (root), 21, 22 in a chain and the finger 23; the
    manipulator [arm] reaches from 20 to 22 and holds 23, the manipulator
    [wrist] reaches from 21 to 22. *)
Definition arm_parents (a : addr) : list addr :=
  if (a =? 22)%positive then [21%positive]
  else if (a =? 21)%positive then [20%positive]
  else if (a =? 23)%positive then [22%positive]
  else [].



(** Depth of the links of the arm below the root. *)
Definition arm_depth (a : addr) : nat :=
  if (a =? 23)%positive then 3
  else if (a =? 22)%positive then 2
  else if (a =? 21)%positive then 1
  else 0.



(** * Theorems *)

(** ** Numbers and the method monad *)

(** [x + 0.0] is [x] itself, also as a representation. *)
Lemma dReal_plus_0_r (x : dReal) : (x + 0)%Q = x.
Proof.
  destruct x as [n d]. unfold Qplus. cbn [Qnum Qden].
  rewrite Z.mul_1_r, Z.add_0_r, Pos.mul_1_r. reflexivity.
Qed.

Lemma bind_ret {A B : Type} (a : A) (k : A -> M B) (srv : Server) :
  bind (ret a) k srv = k a srv.
Proof. reflexivity. Qed.

Lemma bind_call {B : Type} (c : ServerCall) (k : unit -> M B) (srv : Server) :
  bind (call c) k srv = k tt (srv ++ [c]).
Proof. reflexivity. Qed.

Lemma bind_deref_Some {A B : Type} (a : A) (k : A -> M B) (srv : Server) :
  bind (deref (Some a)) k srv = k a srv.
Proof. reflexivity. Qed.

Lemma bind_deref_None {A B : Type} (k : A -> M B) (srv : Server) :
  bind (deref None) k srv = (None, srv).
Proof. reflexivity. Qed.


(** ** JointMarker *)

Section JointMarkerFacts.
Context `{conv : !ORConversions}.

(** One tick, in closed form: the calls are sent first; the joint is
    dereferenced afterwards, and only when no drag is in progress. *)
Lemma joint_sync_unfold (env : Environment) (this : JointMarker.t) (srv : Server) :
  JointMarker.EnvironmentSync env this srv =
  (if JointMarker.active_ this then Some (false, joint_synced 0%Q this)
   else match JointMarker.joint env this with
        | Some j => Some (false, joint_synced (Joint.GetValue0 j) this)
        | None => None
        end,
   srv ++ joint_sync_calls this).
Proof.
  destruct this as [a p i d c f act m].
  unfold JointMarker.EnvironmentSync, joint_sync_calls, joint_synced,
    JointMarker.joint, bind, ret, call, deref; cbn.
  destruct f, act; cbn; rewrite <- ?app_assoc; cbn;
    try reflexivity; destruct (joints env !! a); reflexivity.
Qed.

(** A tick changes neither the handle pose nor the drag flag. *)
Lemma joint_synced_frame (live : dReal) (this : JointMarker.t) :
  JointMarker.joint_pose_ (joint_synced live this) = JointMarker.joint_pose_ this
  /\ JointMarker.active_ (joint_synced live this) = JointMarker.active_ this.
Proof. split; reflexivity. Qed.

Lemma joint_synced_angle_active (live : dReal) (this : JointMarker.t) :
  JointMarker.active_ this = true ->
  JointMarker.angle (joint_synced live this) = JointMarker.angle this.
Proof. intros Hact. unfold JointMarker.angle, joint_synced; cbn. now rewrite Hact. Qed.

Lemma joint_synced_angle_idle (live : dReal) (this : JointMarker.t) :
  JointMarker.active_ this = false ->
  JointMarker.angle (joint_synced live this) = live.
Proof.
  intros Hact. unfold JointMarker.angle, joint_synced; cbn.
  rewrite Hact. apply dReal_plus_0_r.
Qed.

(** While a drag is in progress every operation returns, and none except
    mouse-up ends the drag or moves the handle pose. *)
Lemma step_while_active (op : JointMarker.Op) (this : JointMarker.t) (srv : Server) :
  JointMarker.active_ this = true ->
  exists this' srv',
    JointMarker.step op this srv = (Some this', srv')
    /\ JointMarker.joint_pose_ this' = JointMarker.joint_pose_ this
    /\ (JointMarker.is_mouse_up op = false -> JointMarker.active_ this' = true)
    /\ (JointMarker.is_pose_update op = false ->
        JointMarker.angle this' = JointMarker.angle this).
Proof.
  intros Hact. destruct op as [env | p | f | fb]; cbn [JointMarker.step].
  - unfold bind. rewrite joint_sync_unfold, Hact. cbn.
    eexists _, _. split; [reflexivity |].
    repeat split; intros; try assumption.
    now apply joint_synced_angle_active.
  - unfold JointMarker.set_pose. rewrite Hact. cbn.
    eexists _, _. split; [reflexivity |]. repeat split; intros; assumption.
  - eexists _, _. split; [reflexivity |].
    destruct this; repeat split; intros; assumption.
  - eexists _, _. split; [reflexivity |].
    unfold JointMarker.JointCallback, JointMarker.is_mouse_up,
      JointMarker.is_pose_update.
    destruct this; destruct (event_type fb); cbn in *;
      repeat split; intros; congruence.
Qed.

Lemma run_while_active (ops : list JointMarker.Op) :
  forall (this : JointMarker.t) (srv : Server),
    JointMarker.active_ this = true ->
    forallb (fun op => negb (JointMarker.is_mouse_up op)) ops = true ->
    exists this' srv',
      JointMarker.run ops this srv = (Some this', srv')
      /\ JointMarker.joint_pose_ this' = JointMarker.joint_pose_ this
      /\ JointMarker.active_ this' = true.
Proof.
  induction ops as [| op ops IH]; intros this srv Hact Hops.
  - exists this, srv. repeat split; assumption.
  - cbn in Hops. apply andb_prop in Hops as [Hop Hops].
    apply negb_true_iff in Hop.
    destruct (step_while_active op this srv Hact)
      as (this1 & srv1 & Hstep & Hpose & Hact1 & _).
    destruct (IH this1 srv1 (Hact1 Hop) Hops)
      as (this2 & srv2 & Hrun & Hpose2 & Hact2).
    exists this2, srv2. cbn [JointMarker.run]. unfold bind. rewrite Hstep.
    repeat split; [exact Hrun | congruence | exact Hact2].
Qed.

(** C10. [JointMarker::EnvironmentSync] returns [false] in every state in
    which it returns, having set [created_]; it returns in every state
    except the one where no drag is in progress and the joint is gone. *)
Theorem joint_sync_returns_false
    (env : Environment) (this : JointMarker.t) (srv : Server) :
  match JointMarker.EnvironmentSync env this srv with
  | (Some (ready, this'), _) =>
      ready = false /\ JointMarker.created_ this' = true
  | (None, _) =>
      JointMarker.joint env this = None /\ JointMarker.active_ this = false
  end.
Proof.
  rewrite joint_sync_unfold.
  destruct (JointMarker.active_ this) eqn:Hact; [split; reflexivity |].
  destruct (JointMarker.joint env this); split; reflexivity.
Qed.

(** C6. On a live joint a tick returns; with no drag in progress the angle
    reported afterwards is the joint's live value, and during a drag the tick
    leaves the angle as it was.  During a drag every operation returns, and
    only a pose-update feedback event can change the angle. *)
Theorem joint_angle_follows_joint_when_idle
    (env : Environment) (this : JointMarker.t) (srv : Server) (j : Joint.t) :
  JointMarker.joint env this = Some j ->
  (exists this',
     JointMarker.EnvironmentSync env this srv
       = (Some (false, this'), srv ++ joint_sync_calls this)
     /\ (JointMarker.active_ this = false ->
         JointMarker.angle this' = Joint.GetValue0 j
         /\ JointMarker.joint_delta_ this' = 0%Q
         /\ JointMarker.joint_initial_ this' = Joint.GetValue0 j)
     /\ (JointMarker.active_ this = true ->
         JointMarker.angle this' = JointMarker.angle this))
  /\ (JointMarker.active_ this = true ->
      forall (op : JointMarker.Op) (srv0 : Server),
      exists this' srv',
        JointMarker.step op this srv0 = (Some this', srv')
        /\ (JointMarker.is_pose_update op = false ->
            JointMarker.angle this' = JointMarker.angle this)).
Proof.
  intros Hlive. split.
  - rewrite joint_sync_unfold, Hlive.
    destruct (JointMarker.active_ this) eqn:Hact.
    + eexists. split; [reflexivity |]. split; [discriminate |].
      intros _. now apply joint_synced_angle_active.
    + eexists. split; [reflexivity |]. split; [| discriminate].
      intros _. split; [now apply joint_synced_angle_idle |].
      unfold joint_synced; cbn. rewrite Hact. split; reflexivity.
  - intros Hact op srv0.
    destruct (step_while_active op this srv0 Hact)
      as (this1 & srv1 & Hstep & _ & _ & Hangle).
    exists this1, srv1. split; assumption.
Qed.

(** C7. From a mouse-down event on, through any sequence of ticks, setter
    calls and feedback events that contains no mouse-up, the run returns with
    the handle pose it started with and the drag still in progress; and
    [set_pose] does nothing to a marker being dragged. *)
Theorem joint_pose_frozen_during_drag
    (ops : list JointMarker.Op) (this : JointMarker.t) (srv : Server)
    (down : InteractiveMarkerFeedback) :
  event_type down = MOUSE_DOWN ->
  forallb (fun op => negb (JointMarker.is_mouse_up op)) ops = true ->
  (exists this' srv',
     JointMarker.run ops (JointMarker.JointCallback down this) srv
       = (Some this', srv')
     /\ JointMarker.joint_pose_ this' = JointMarker.joint_pose_ this
     /\ JointMarker.active_ this' = true)
  /\ (forall (that : JointMarker.t) (p : Transform),
        JointMarker.active_ that = true -> JointMarker.set_pose p that = that).
Proof.
  intros Hdown Hops. split.
  - assert (Hstart : JointMarker.active_ (JointMarker.JointCallback down this) = true
                     /\ JointMarker.joint_pose_ (JointMarker.JointCallback down this)
                        = JointMarker.joint_pose_ this).
    { unfold JointMarker.JointCallback. rewrite Hdown. split; reflexivity. }
    destruct Hstart as [Hact Hpose].
    destruct (run_while_active ops _ srv Hact Hops)
      as (this' & srv' & Hrun & Hpose' & Hact').
    exists this', srv'. repeat split; [exact Hrun | congruence | exact Hact'].
  - intros that p Hact. unfold JointMarker.set_pose. now rewrite Hact.
Qed.

(** C5. For a joint that is not revolute, or is static, or is mimic, the
    constructor returns an object without any call to the server; the first
    tick on that object nevertheless inserts the default-constructed marker
    (empty name, no control) and sets the pose of the marker named by the
    empty string. *)
Theorem inert_joint_first_sync_registers
    (env : Environment) (a : addr) (j : Joint.t) (srv : Server) :
  joints env !! a = Some j ->
  controllable j = false ->
  exists this this',
    JointMarker.JointMarker env a srv = (Some this, srv)
    /\ JointMarker.marker_ this = InteractiveMarker_default
    /\ JointMarker.EnvironmentSync env this srv
       = (Some (false, this'),
          srv ++ [insert_marker InteractiveMarker_default;
                  setPose "" (toROSPose (JointMarker.GetJointPose j))]).
Proof.
  intros Hj Hc.
  set (this := JointMarker.mk a (JointMarker.GetJointPose j) (Joint.GetValue0 j)
                 0%Q false true false InteractiveMarker_default).
  assert (Hctor : JointMarker.JointMarker env a srv = (Some this, srv)).
  { unfold JointMarker.JointMarker, bind, deref. rewrite Hj.
    unfold controllable in Hc.
    destruct (is_revolute (Joint.GetType j)); [| reflexivity].
    destruct (Joint.IsStatic j); [reflexivity |].
    destruct (Joint.IsMimic j); [reflexivity | discriminate]. }
  exists this, (joint_synced (Joint.GetValue0 j) this).
  split; [exact Hctor |]. split; [reflexivity |].
  rewrite joint_sync_unfold. unfold JointMarker.joint. cbn. rewrite Hj.
  reflexivity.
Qed.

End JointMarkerFacts.

(** ** LinkMarker *)

Section LinkMarkerFacts.
Context `{conv : !ORConversions}.

Ltac some_or_none :=
  split;
  [ first [ intros _; reflexivity | intros [? ?]; discriminate ]
  | first [ intros _; eexists; reflexivity | discriminate ] ].

(** [CreateGeometry(GeometryPtr)] returns a primitive exactly for the
    geometries with renderable content. *)
Lemma CreateGeometry_geometry_renderable (ghost : bool) (g : Geometry.t) :
  is_Some (LinkMarker.CreateGeometry_geometry ghost g)
  <-> has_renderable_content g = true.
Proof.
  unfold LinkMarker.CreateGeometry_geometry, has_renderable_content.
  destruct (String.prefix "__norenderif__" (Geometry.GetRenderFilename g)) eqn:Hp.
  - rewrite andb_false_r. cbn.
    destruct (Geometry.GetType g); some_or_none.
  - rewrite andb_true_r.
    destruct (String.eqb (Geometry.GetRenderFilename g) "") eqn:He; cbn.
    + destruct (Geometry.GetType g); some_or_none.
    + some_or_none.
Qed.

(** The scan finds nothing exactly when the map agrees with the scene. *)
Lemma scan_geometries_false_iff (env : Environment)
    (gm : gmap addr MarkerAddress) (gs : list addr) :
  LinkMarker.scan_geometries env gm gs false = false <-> in_sync env gm gs.
Proof.
  unfold in_sync, visible. induction gs as [| g gs IH]; cbn.
  - split; [intros _ g [] | reflexivity].
  - destruct (gm !! g) as [v |] eqn:Hg;
      destruct (Geometry.IsVisible (geometries env g)) eqn:Hv; cbn.
    + rewrite IH. split.
      * intros Hall g' [<- | Hin]; [| now apply Hall].
        rewrite Hv, Hg. split; [intros _; now eexists | reflexivity].
      * intros Hall g' Hin. apply Hall. now right.
    + split; [discriminate |]. intros Hall.
      destruct (Hall g (or_introl eq_refl)) as [_ Hback].
      rewrite Hv, Hg in Hback. discriminate Hback. now eexists.
    + split; [discriminate |]. intros Hall.
      destruct (Hall g (or_introl eq_refl)) as [Hfwd _].
      rewrite Hv, Hg in Hfwd. destruct (Hfwd eq_refl); discriminate.
    + rewrite IH. split.
      * intros Hall g' [<- | Hin]; [| now apply Hall].
        rewrite Hv, Hg. split; [discriminate | intros []; discriminate].
      * intros Hall g' Hin. apply Hall. now right.
Qed.

(** Visibility that is the same on the listed geometries keeps agreement. *)
Lemma in_sync_same_visibility (env1 env2 : Environment)
    (gm : gmap addr MarkerAddress) (gs : list addr) :
  (forall g, In g gs -> visible env2 g = visible env1 g) ->
  in_sync env1 gm gs -> in_sync env2 gm gs.
Proof.
  intros Hsame Hsync g Hin. rewrite (Hsame g Hin). now apply Hsync.
Qed.

(** A listed geometry whose visibility was toggled breaks agreement. *)
Lemma scan_geometries_toggled (env1 env2 : Environment)
    (gm : gmap addr MarkerAddress) (gs : list addr) (g0 : addr) :
  In g0 gs ->
  visible env2 g0 = negb (visible env1 g0) ->
  in_sync env1 gm gs ->
  LinkMarker.scan_geometries env2 gm gs false = true.
Proof.
  intros Hin Htoggle Hsync.
  destruct (LinkMarker.scan_geometries env2 gm gs false) eqn:Hscan;
    [reflexivity |].
  apply scan_geometries_false_iff in Hscan.
  pose proof (Hsync g0 Hin) as H1. pose proof (Hscan g0 Hin) as H2.
  rewrite Htoggle in H2.
  destruct (visible env1 g0); cbn in H2.
  - destruct H2 as [_ H2]. destruct H1 as [H1 _].
    specialize (H2 (H1 eq_refl)). discriminate.
  - destruct H2 as [H2 _]. destruct H1 as [_ H1].
    specialize (H1 (H2 eq_refl)). discriminate.
Qed.

(** The loop of [CreateGeometry()] appends one primitive for each visible
    geometry with renderable content. *)
Lemma CreateGeometry_loop_length (env : Environment) (ghost : bool)
    (gs : list addr) :
  forall (ms : list Marker) (gm : gmap addr MarkerAddress),
    length (fst (LinkMarker.CreateGeometry_loop env ghost gs ms gm))
    = (length ms + length (rendered env gs))%nat.
Proof.
  unfold rendered, visible.
  induction gs as [| g gs IH]; intros ms gm; cbn.
  - lia.
  - destruct (Geometry.IsVisible (geometries env g)); cbn; [| apply IH].
    pose proof (CreateGeometry_geometry_renderable ghost (geometries env g))
      as Hr.
    destruct (LinkMarker.CreateGeometry_geometry ghost (geometries env g))
      as [m |].
    + destruct Hr as [Hr _]. rewrite Hr by (now eexists). cbn.
      rewrite IH, length_app. cbn. lia.
    + destruct (has_renderable_content (geometries env g)).
      * destruct Hr as [_ Hr]. destruct (Hr eq_refl); discriminate.
      * apply IH.
Qed.

(** The loop adds an entry for each visible geometry of the list, and for
    no other. *)
Lemma CreateGeometry_loop_keys (env : Environment) (ghost : bool)
    (gs : list addr) :
  forall (ms : list Marker) (gm : gmap addr MarkerAddress) (g : addr),
    is_Some (snd (LinkMarker.CreateGeometry_loop env ghost gs ms gm) !! g)
    <-> is_Some (gm !! g) \/ (In g gs /\ visible env g = true).
Proof.
  unfold visible.
  induction gs as [| h gs IH]; intros ms gm g; cbn.
  - split; [now left | intros [Hs | [[] _]]; exact Hs].
  - destruct (Geometry.IsVisible (geometries env h)) eqn:Hv; cbn.
    + assert (Hins : forall v : MarkerAddress,
                 is_Some (<[h := v]> gm !! g) <-> is_Some (gm !! g) \/ h = g).
      { intros v. destruct (decide (h = g)) as [-> | Hne].
        - rewrite lookup_insert_eq. split; [now right | now eexists].
        - rewrite lookup_insert_ne by exact Hne.
          split; [now left | intros [Hs | Heq]; [exact Hs | contradiction]]. }
      destruct (LinkMarker.CreateGeometry_geometry ghost (geometries env h));
        rewrite IH, Hins; split.
      * intros [[Hs | <-] | [Hin Hg]]; auto.
      * intros [Hs | [[<- | Hin] Hg]]; auto.
      * intros [[Hs | <-] | [Hin Hg]]; auto.
      * intros [Hs | [[<- | Hin] Hg]]; auto.
    + rewrite IH. split.
      * intros [Hs | [Hin Hg]]; auto.
      * intros [Hs | [[<- | Hin] Hg]]; auto. congruence.
Qed.

(** The loop keeps every entry faithful: it stores an address for a
    geometry that yields a primitive and the null pointer for one that
    yields none. *)
Lemma CreateGeometry_loop_entries (env : Environment) (ghost : bool)
    (gs : list addr) :
  forall (ms : list Marker) (gm : gmap addr MarkerAddress),
    (forall g, entry_faithful env ghost gm g) ->
    forall g,
      entry_faithful env ghost
        (snd (LinkMarker.CreateGeometry_loop env ghost gs ms gm)) g.
Proof.
  induction gs as [| h gs IH]; intros ms gm Hinv g; cbn.
  - apply Hinv.
  - destruct (Geometry.IsVisible (geometries env h)); cbn; [| now apply IH].
    destruct (LinkMarker.CreateGeometry_geometry ghost (geometries env h))
      as [m |] eqn:Hm; apply IH; intros g'; unfold entry_faithful.
    + destruct (decide (h = g')) as [<- | Hne].
      * rewrite lookup_insert_eq, Hm. now eexists.
      * rewrite lookup_insert_ne by exact Hne. apply Hinv.
    + destruct (decide (h = g')) as [<- | Hne].
      * rewrite lookup_insert_eq. exact Hm.
      * rewrite lookup_insert_ne by exact Hne. apply Hinv.
Qed.

Lemma visual_control_store (c : InteractiveMarkerControl) (this : LinkMarker.t) :
  wf this ->
  LinkMarker.visual_control_ (LinkMarker.store_visual_control_ c this) = Some c.
Proof.
  intros [c0 Hc0]. unfold LinkMarker.visual_control_ in *.
  cbn. apply list_lookup_insert_eq. now apply lookup_lt_Some in Hc0.
Qed.

Lemma visual_control_set_geometry_markers (gm : gmap addr MarkerAddress)
    (this : LinkMarker.t) :
  LinkMarker.visual_control_ (LinkMarker.set_geometry_markers_ gm this)
  = LinkMarker.visual_control_ this.
Proof. reflexivity. Qed.

(** [CreateGeometry()] returns when [visual_control_] is valid and the link
    is live, and sends nothing. *)
Lemma CreateGeometry_unfold (env : Environment) (this : LinkMarker.t)
    (srv : Server) (c : InteractiveMarkerControl) (l : Link.t) :
  LinkMarker.visual_control_ this = Some c ->
  LinkMarker.link env this = Some l ->
  LinkMarker.CreateGeometry env this srv = (Some (recreated env this c l), srv).
Proof.
  intros Hc Hl. unfold LinkMarker.CreateGeometry, bind, deref, ret.
  rewrite Hc. unfold LinkMarker.link in *. cbn. rewrite Hl. reflexivity.
Qed.

Lemma recreated_fields (env : Environment) (this : LinkMarker.t)
    (c : InteractiveMarkerControl) (l : Link.t) :
  LinkMarker.visual_control_ this = Some c ->
  LinkMarker.link_ (recreated env this c l) = LinkMarker.link_ this
  /\ LinkMarker.is_ghost_ (recreated env this c l) = LinkMarker.is_ghost_ this
  /\ LinkMarker.geometry_markers_ (recreated env this c l)
     = snd (LinkMarker.CreateGeometry_loop env (LinkMarker.is_ghost_ this)
              (Link.GetGeometries l) [] ∅)
  /\ LinkMarker.visual_control_ (recreated env this c l)
     = Some (LinkMarker.set_markers
               (fst (LinkMarker.CreateGeometry_loop env
                       (LinkMarker.is_ghost_ this) (Link.GetGeometries l) [] ∅))
               c).
Proof.
  intros Hc. repeat split.
  unfold recreated. cbv zeta.
  rewrite visual_control_set_geometry_markers. apply visual_control_store.
  unfold wf.
  rewrite visual_control_set_geometry_markers, visual_control_store.
  - now eexists.
  - unfold wf. rewrite Hc. now eexists.
Qed.

(** After a recreation the map agrees with the scene. *)
Lemma recreated_in_sync (env : Environment) (this : LinkMarker.t)
    (c : InteractiveMarkerControl) (l : Link.t) :
  LinkMarker.visual_control_ this = Some c ->
  in_sync env (LinkMarker.geometry_markers_ (recreated env this c l))
    (Link.GetGeometries l).
Proof.
  intros Hc g Hin.
  destruct (recreated_fields env this c l Hc) as (_ & _ & -> & _).
  rewrite CreateGeometry_loop_keys, lookup_empty. split.
  - intros Hv. now right.
  - intros [[x Hx] | [_ Hv]]; [discriminate | exact Hv].
Qed.

(** One tick of a link marker, in closed form. *)
Lemma link_sync_unfold (env : Environment) (this : LinkMarker.t) (srv : Server)
    (c : InteractiveMarkerControl) (l : Link.t) :
  LinkMarker.visual_control_ this = Some c ->
  LinkMarker.link env this = Some l ->
  LinkMarker.EnvironmentSync env this srv =
  if is_changed env this l
  then (Some (recreated env this c l),
        srv ++ [insert_marker
                  (LinkMarker.interactive_marker_ (recreated env this c l))])
  else (Some this,
        srv ++ [setPose (name (LinkMarker.interactive_marker_ this))
                        (toROSPose (Link.GetTransform l))]).
Proof.
  intros Hc Hl. unfold LinkMarker.EnvironmentSync, is_changed.
  unfold bind at 1. unfold deref at 1. rewrite Hl.
  destruct (LinkMarker.scan_geometries env (LinkMarker.geometry_markers_ this)
              (Link.GetGeometries l) false).
  - unfold bind at 1. rewrite (CreateGeometry_unfold env this srv c l Hc Hl).
    reflexivity.
  - reflexivity.
Qed.

(** After any tick that returns, the map agrees with the scene of that
    tick, and [visual_control_] is still valid. *)
Lemma link_sync_establishes_in_sync (env : Environment) (this : LinkMarker.t)
    (srv : Server) (l : Link.t) :
  wf this ->
  LinkMarker.link env this = Some l ->
  exists this' srv',
    LinkMarker.EnvironmentSync env this srv = (Some this', srv')
    /\ wf this'
    /\ LinkMarker.link_ this' = LinkMarker.link_ this
    /\ in_sync env (LinkMarker.geometry_markers_ this') (Link.GetGeometries l).
Proof.
  intros [c Hc] Hl. rewrite (link_sync_unfold env this srv c l Hc Hl).
  destruct (is_changed env this l) eqn:Hch.
  - eexists _, _. split; [reflexivity |].
    destruct (recreated_fields env this c l Hc) as (Hlink & _ & _ & Hvc).
    split; [unfold wf; rewrite Hvc; now eexists |].
    split; [exact Hlink |]. now apply recreated_in_sync.
  - eexists _, _. split; [reflexivity |].
    split; [now exists c |]. split; [reflexivity |].
    now apply scan_geometries_false_iff.
Qed.

(** The constructor of a link marker leaves [visual_control_] valid, and
    sends nothing. *)
Lemma LinkMarker_constructed_wf (env : Environment) (a : addr) (ghost : bool)
    (srv : Server) (l : Link.t) :
  links env !! a = Some l ->
  exists this,
    LinkMarker.LinkMarker env a ghost srv = (Some this, srv) /\ wf this.
Proof.
  intros Hl. unfold LinkMarker.LinkMarker, LinkMarker.id, LinkMarker.link,
    bind, deref, ret. cbn. rewrite Hl. cbn.
  eexists. split; [reflexivity |]. unfold wf. cbn. now eexists.
Qed.

(** C2. Two consecutive ticks on a live link, the second in a scene with
    the same geometry list and the same visibility flags (the transform and
    everything else may differ): the first returns, and the second returns
    the object unchanged after a single call, [setPose] with the current
    link transform. *)
Theorem link_second_sync_only_sets_pose
    (env1 env2 : Environment) (this : LinkMarker.t) (srv : Server)
    (l1 l2 : Link.t) :
  wf this ->
  LinkMarker.link env1 this = Some l1 ->
  LinkMarker.link env2 this = Some l2 ->
  Link.GetGeometries l2 = Link.GetGeometries l1 ->
  (forall g, In g (Link.GetGeometries l1) -> visible env2 g = visible env1 g) ->
  exists this1 srv1,
    LinkMarker.EnvironmentSync env1 this srv = (Some this1, srv1)
    /\ LinkMarker.EnvironmentSync env2 this1 srv1
       = (Some this1,
          srv1 ++ [setPose (name (LinkMarker.interactive_marker_ this1))
                           (toROSPose (Link.GetTransform l2))]).
Proof.
  intros Hwf Hl1 Hl2 Hgs Hvis.
  destruct (link_sync_establishes_in_sync env1 this srv l1 Hwf Hl1)
    as (this1 & srv1 & Hfirst & [c1 Hc1] & Hlink & Hsync).
  exists this1, srv1. split; [exact Hfirst |].
  assert (Hl2' : LinkMarker.link env2 this1 = Some l2).
  { unfold LinkMarker.link in *. now rewrite Hlink. }
  rewrite (link_sync_unfold env2 this1 srv1 c1 l2 Hc1 Hl2').
  assert (Hch : is_changed env2 this1 l2 = false).
  { apply scan_geometries_false_iff. rewrite Hgs.
    now apply (in_sync_same_visibility env1 env2). }
  now rewrite Hch.
Qed.

(** C3. Two consecutive ticks on a live link, the visibility flag of a
    listed geometry toggled in between: the second tick recreates (its single
    call is [insert] of the rebuilt marker), and the control then holds one
    primitive per visible geometry with renderable content. *)
Theorem link_visibility_toggle_recreates
    (env1 env2 : Environment) (this : LinkMarker.t) (srv : Server)
    (l1 l2 : Link.t) (g0 : addr) :
  wf this ->
  LinkMarker.link env1 this = Some l1 ->
  LinkMarker.link env2 this = Some l2 ->
  Link.GetGeometries l2 = Link.GetGeometries l1 ->
  In g0 (Link.GetGeometries l1) ->
  visible env2 g0 = negb (visible env1 g0) ->
  exists this1 srv1 this2 c,
    LinkMarker.EnvironmentSync env1 this srv = (Some this1, srv1)
    /\ LinkMarker.EnvironmentSync env2 this1 srv1
       = (Some this2,
          srv1 ++ [insert_marker (LinkMarker.interactive_marker_ this2)])
    /\ LinkMarker.visual_control_ this2 = Some c
    /\ length (markers c) = length (rendered env2 (Link.GetGeometries l2)).
Proof.
  intros Hwf Hl1 Hl2 Hgs Hin Htoggle.
  destruct (link_sync_establishes_in_sync env1 this srv l1 Hwf Hl1)
    as (this1 & srv1 & Hfirst & [c1 Hc1] & Hlink & Hsync).
  assert (Hl2' : LinkMarker.link env2 this1 = Some l2).
  { unfold LinkMarker.link in *. now rewrite Hlink. }
  assert (Hch : is_changed env2 this1 l2 = true).
  { unfold is_changed. rewrite Hgs.
    now apply (scan_geometries_toggled env1 env2 _ _ g0). }
  destruct (recreated_fields env2 this1 c1 l2 Hc1) as (_ & _ & _ & Hvc).
  exists this1, srv1, (recreated env2 this1 c1 l2). eexists.
  split; [exact Hfirst |].
  rewrite (link_sync_unfold env2 this1 srv1 c1 l2 Hc1 Hl2'), Hch.
  split; [reflexivity |]. split; [exact Hvc |].
  cbn [markers LinkMarker.set_markers]. now rewrite CreateGeometry_loop_length.
Qed.

(** C4, as the code has it.  After a tick that recreates, the map has an
    entry exactly for the visible geometries of the link: for one with
    renderable content the entry is the address its primitive had when it
    was pushed, which is not null (and which later pushes may have left
    dangling); for one without, the entry is the null pointer; a hidden
    geometry has no entry. *)
Theorem link_recreation_maps_visible_geometries
    (env : Environment) (this : LinkMarker.t) (srv : Server) (l : Link.t) :
  wf this ->
  LinkMarker.link env this = Some l ->
  is_changed env this l = true ->
  exists this' c,
    LinkMarker.EnvironmentSync env this srv
      = (Some this',
         srv ++ [insert_marker (LinkMarker.interactive_marker_ this')])
    /\ LinkMarker.visual_control_ this' = Some c
    /\ (forall g, is_Some (LinkMarker.geometry_markers_ this' !! g)
                  <-> In g (Link.GetGeometries l) /\ visible env g = true)
    /\ (forall g, In g (Link.GetGeometries l) -> visible env g = true ->
          LinkMarker.geometry_markers_ this' !! g
          = Some (if has_renderable_content (geometries env g)
                  then address_of_back else NULL)).
Proof.
  intros [c Hc] Hl Hch.
  destruct (recreated_fields env this c l Hc) as (_ & Hghost & Hgm & Hvc).
  exists (recreated env this c l). eexists.
  rewrite (link_sync_unfold env this srv c l Hc Hl), Hch.
  split; [reflexivity |]. split; [exact Hvc |].
  assert (Hkeys : forall g,
             is_Some (LinkMarker.geometry_markers_ (recreated env this c l) !! g)
             <-> In g (Link.GetGeometries l) /\ visible env g = true).
  { intros g. rewrite Hgm, CreateGeometry_loop_keys, lookup_empty. split.
    - intros [[x Hx] | Hg]; [discriminate | exact Hg].
    - intros Hg. now right. }
  split; [exact Hkeys |].
  intros g Hin Hv.
  destruct (proj2 (Hkeys g) (conj Hin Hv)) as [e He].
  pose proof (CreateGeometry_loop_entries env (LinkMarker.is_ghost_ this)
                (Link.GetGeometries l) [] ∅) as Hent.
  specialize (Hent (fun g' => ltac:(unfold entry_faithful;
                                   rewrite lookup_empty; exact I)) g).
  unfold entry_faithful in Hent. rewrite <- Hgm, He in Hent.
  pose proof (CreateGeometry_geometry_renderable (LinkMarker.is_ghost_ this)
                (geometries env g)) as Hr.
  rewrite He. destruct e.
  - destruct (has_renderable_content (geometries env g)); [| reflexivity].
    destruct (proj2 Hr eq_refl) as [m Hm]. congruence.
  - now rewrite (proj1 Hr Hent).
Qed.

(** C8, as the code has it.  [SetRenderMode] records the mode and nothing
    reads it: a tick after [SetRenderMode] sends the same calls as a tick
    without it, and leaves the same object up to the recorded mode. *)
Theorem link_render_mode_is_not_read
    (env : Environment) (this : LinkMarker.t) (mode : RenderMode) (srv : Server) :
  LinkMarker.EnvironmentSync env (LinkMarker.SetRenderMode mode this) srv
  = (option_map (LinkMarker.SetRenderMode mode)
       (fst (LinkMarker.EnvironmentSync env this srv)),
     snd (LinkMarker.EnvironmentSync env this srv)).
Proof.
  destruct this as [a ghost im rm gm].
  unfold LinkMarker.EnvironmentSync, LinkMarker.CreateGeometry,
    LinkMarker.SetRenderMode, LinkMarker.link, LinkMarker.visual_control_,
    bind, deref, ret, call.
  cbn. destruct (links env !! a) as [l |]; [| reflexivity].
  destruct (LinkMarker.scan_geometries env gm (Link.GetGeometries l) false);
    [| reflexivity].
  destruct (controls im !! 0%nat); reflexivity.
Qed.

(** A tick on a link marker whose link is gone aborts at once. *)
Lemma link_sync_expired (env : Environment) (this : LinkMarker.t) (srv : Server) :
  LinkMarker.link env this = None ->
  LinkMarker.EnvironmentSync env this srv = (None, srv).
Proof.
  intros Hl. unfold LinkMarker.EnvironmentSync, bind, deref. now rewrite Hl.
Qed.

End LinkMarkerFacts.

(** ** SuperViewer *)

Section SuperViewerFacts.
Context `{conv : !ORConversions}.

Lemma at_most_one_more_refl (this : SuperViewer.t) : at_most_one_more this this.
Proof. exists []. split; [now rewrite app_nil_r | cbn; lia]. Qed.

(** A loop whose body never falls through runs its body at most once. *)
Lemma for_range_one_iteration {St : Type} (body : nat -> St -> SuperViewer.Flow * St)
    (count first : nat) (s : St) :
  (forall i s0, fst (body i s0) <> SuperViewer.Continue) ->
  SuperViewer.for_range count first body s
  = match count with
    | O => (SuperViewer.Continue, s)
    | S _ =>
        match body first s with
        | (SuperViewer.Throw, s') => (SuperViewer.Throw, s')
        | (_, s') => (SuperViewer.Continue, s')
        end
    end.
Proof.
  intros Hbody. destruct count as [| count]; [reflexivity |]. cbn.
  specialize (Hbody first s).
  destruct (body first s) as [[| |] s']; cbn in *; congruence.
Qed.

(** The loop over the geometries of one link makes at most one marker. *)
Lemma geometry_loop_at_most_one (env : Environment) (l : Link.t)
    (geoms : list addr) (count : nat) :
  forall (first : nat) (this : SuperViewer.t),
    let r := SuperViewer.for_range count first
               (SuperViewer.geometry_body env l geoms) this in
    at_most_one_more this (snd r).
Proof.
  induction count as [| count IH]; intros first this; cbn.
  - apply at_most_one_more_refl.
  - unfold SuperViewer.geometry_body at 1.
    destruct (SuperViewer.at_ geoms first) as [g |]; cbn.
    + destruct (extents_x_isnan (Geometry.ComputeAABB (geometries env g))); cbn.
      * apply IH.
      * eexists. split; [reflexivity | cbn; lia].
    + apply at_most_one_more_refl.
Qed.

Lemma link_body_never_continues (env : Environment) (links : list Link.t)
    (i j : nat) (this : SuperViewer.t) :
  fst (SuperViewer.link_body env links i j this) <> SuperViewer.Continue.
Proof.
  unfold SuperViewer.link_body. destruct (SuperViewer.at_ links i) as [l |];
    [| discriminate].
  destruct (SuperViewer.for_range _ _ _ _) as [[| |] s']; discriminate.
Qed.

Lemma body_body_never_continues (env : Environment)
    (bodies : list SuperViewer.KinBody) (i : nat) (this : SuperViewer.t) :
  fst (SuperViewer.body_body env bodies i this) <> SuperViewer.Continue.
Proof.
  unfold SuperViewer.body_body. destruct (SuperViewer.at_ bodies i) as [b |];
    [| discriminate].
  destruct (SuperViewer.for_range _ _ _ _) as [[| |] s']; discriminate.
Qed.

Lemma link_body_at_most_one (env : Environment) (links : list Link.t)
    (i j : nat) (this : SuperViewer.t) :
  at_most_one_more this (snd (SuperViewer.link_body env links i j this)).
Proof.
  unfold SuperViewer.link_body. destruct (SuperViewer.at_ links i) as [l |];
    [| apply at_most_one_more_refl].
  pose proof (geometry_loop_at_most_one env l (Link.GetGeometries l)
                (length (Link.GetGeometries l)) 0 this) as Hg.
  cbv zeta in Hg.
  destruct (SuperViewer.for_range _ _ _ _) as [[| |] s']; exact Hg.
Qed.

Lemma body_body_at_most_one (env : Environment)
    (bodies : list SuperViewer.KinBody) (i : nat) (this : SuperViewer.t) :
  at_most_one_more this (snd (SuperViewer.body_body env bodies i this)).
Proof.
  unfold SuperViewer.body_body. destruct (SuperViewer.at_ bodies i) as [b |];
    [| apply at_most_one_more_refl].
  rewrite (for_range_one_iteration _ _ _ _ (link_body_never_continues env _ i)).
  destruct (length (SuperViewer.GetLinks b)); [apply at_most_one_more_refl |].
  pose proof (link_body_at_most_one env (SuperViewer.GetLinks b) i 0 this) as Hl.
  destruct (SuperViewer.link_body env (SuperViewer.GetLinks b) i 0 this)
    as [[| |] s']; exact Hl.
Qed.

(** Whatever the scene, one tick of the viewer makes at most one shape
    marker. *)
Lemma superviewer_sync_at_most_one_marker (env : Environment)
    (bodies : list SuperViewer.KinBody) (display_created : bool)
    (this : SuperViewer.t) :
  length (SuperViewer.processed this
            (snd (SuperViewer.EnvironmentSync env bodies display_created this)))
  <= 1.
Proof.
  assert (Hmore : at_most_one_more this
            (snd (SuperViewer.EnvironmentSync env bodies display_created this))).
  { unfold SuperViewer.EnvironmentSync.
    destruct display_created; cbn [negb];
      [| exists []; cbn; split; [now rewrite app_nil_r | lia]].
    rewrite (for_range_one_iteration _ _ _ _ (body_body_never_continues env bodies)).
    destruct (length bodies);
      [exists []; cbn; split; [now rewrite app_nil_r | lia] |].
    pose proof (body_body_at_most_one env bodies 0
                  (SuperViewer.mk (S (SuperViewer.mutex_held this))
                     (S (SuperViewer.displays this))
                     (SuperViewer.shape_markers this))) as Hb.
    destruct (SuperViewer.body_body env bodies 0 _) as [[| |] s'];
      unfold at_most_one_more in *; cbn in *; exact Hb. }
  destruct Hmore as (extra & Heq & Hlen).
  unfold SuperViewer.processed. rewrite Heq, drop_app_length, length_map.
  exact Hlen.
Qed.

(** C9. In a scene of two bodies, the first with a link of two boxes and
    the second with a link of one box, one tick makes a shape marker for
    the first box only; the second geometry of the first link and the whole
    second body are not reached. *)
Theorem superviewer_sync_stops_after_first_geometry :
  SuperViewer.all_geometries two_bodies = [1; 2; 3]%positive
  /\ SuperViewer.EnvironmentSync (conv := plain_conversions)
       all_boxes_env two_bodies true (SuperViewer.mk 0 0 [])
     = (SuperViewer.Continue,
        SuperViewer.mk 0 1
          [(1%positive,
            SuperViewer.markerMsg (conv := plain_conversions)
              (sample_link [1; 2]%positive) (box_geometry true))])
  /\ SuperViewer.processed (SuperViewer.mk 0 0 [])
       (snd (SuperViewer.EnvironmentSync (conv := plain_conversions)
               all_boxes_env two_bodies true (SuperViewer.mk 0 0 [])))
     = [1%positive].
Proof. repeat split. Qed.

End SuperViewerFacts.

(** ** Expired references *)

Section ExpiredReferences.
Context `{conv : !ORConversions}.

(** C1, as the code has it.  Neither marker tests its weak reference.  A
    tick of a joint marker whose joint is gone still sends its calls
    ([insert] when an update is forced, then [setPose]); it then returns
    without touching the joint when a drag is in progress, and aborts at the
    dereference otherwise.  A tick of a link marker whose link is gone aborts
    at the dereference, before any call. *)
Theorem expired_reference_is_not_checked (env : Environment) :
  (forall (this : JointMarker.t) (srv : Server),
     JointMarker.joint env this = None ->
     JointMarker.EnvironmentSync env this srv
     = (if JointMarker.active_ this
        then Some (false, joint_synced 0%Q this) else None,
        srv ++ joint_sync_calls this))
  /\ (forall (this : LinkMarker.t) (srv : Server),
       LinkMarker.link env this = None ->
       LinkMarker.EnvironmentSync env this srv = (None, srv)).
Proof.
  split.
  - intros this srv Hgone. rewrite joint_sync_unfold, Hgone. reflexivity.
  - intros this srv Hgone. now apply link_sync_expired.
Qed.

End ExpiredReferences.

(** ** The claims on the sample scene *)

(** C1 fails on the code: in the scene where the joint is gone, the tick of
    the joint marker sends [insert] and [setPose] and then aborts. *)
Lemma expired_joint_sync_calls_server_and_aborts :
  JointMarker.joint expired_env (sample_joint_marker JointRevolute) = None
  /\ JointMarker.EnvironmentSync (conv := plain_conversions) expired_env
       (sample_joint_marker JointRevolute) []
     = (None,
        [insert_marker (JointMarker.marker_ (sample_joint_marker JointRevolute));
         setPose "Environment[1].KinBody[arm].Joint[elbow]"
           (mkPose (mkPoint 1 2 3) (mkQuaternion 0 1 0 0))]).
Proof. split; reflexivity. Qed.

Lemma expired_reference_is_not_checked_witness :
  JointMarker.joint expired_env dragged_joint_marker = None
  /\ LinkMarker.link expired_env synced_link_marker = None
  /\ JointMarker.EnvironmentSync (conv := plain_conversions) expired_env
       dragged_joint_marker []
     = (Some (false, joint_synced 0%Q dragged_joint_marker),
        joint_sync_calls (conv := plain_conversions) dragged_joint_marker)
  /\ LinkMarker.EnvironmentSync (conv := plain_conversions) expired_env
       synced_link_marker []
     = (None, []).
Proof.
  split; [reflexivity |]. split; [reflexivity |].
  destruct (expired_reference_is_not_checked (conv := plain_conversions)
              expired_env) as [Hjoint Hlink].
  split.
  - exact (Hjoint dragged_joint_marker [] eq_refl).
  - exact (Hlink synced_link_marker [] eq_refl).
Defined.

Lemma link_second_sync_only_sets_pose_witness :
  wf sample_link_marker
  /\ exists this1 srv1,
       LinkMarker.EnvironmentSync (conv := plain_conversions)
         (sample_env JointRevolute true false) sample_link_marker []
       = (Some this1, srv1)
       /\ LinkMarker.EnvironmentSync (conv := plain_conversions)
            (sample_env JointPrismatic true false) this1 srv1
          = (Some this1,
             srv1 ++ [setPose (name (LinkMarker.interactive_marker_ this1))
                        (@toROSPose plain_conversions
                           identity_transform)]).
Proof.
  assert (Hwf : wf sample_link_marker) by (eexists; reflexivity).
  split; [exact Hwf |].
  apply (link_second_sync_only_sets_pose (conv := plain_conversions)
           (sample_env JointRevolute true false)
           (sample_env JointPrismatic true false)
           sample_link_marker []
           (sample_link [1; 2]%positive) (sample_link [1; 2]%positive)).
  - exact Hwf.
  - reflexivity.
  - reflexivity.
  - reflexivity.
  - intros g _. reflexivity.
Defined.

Lemma link_visibility_toggle_recreates_witness :
  visible (sample_env JointRevolute true true) 2%positive
  = negb (visible (sample_env JointRevolute true false) 2%positive)
  /\ exists this1 srv1 this2 c,
       LinkMarker.EnvironmentSync (conv := plain_conversions)
         (sample_env JointRevolute true false) sample_link_marker []
       = (Some this1, srv1)
       /\ LinkMarker.EnvironmentSync (conv := plain_conversions)
            (sample_env JointRevolute true true) this1 srv1
          = (Some this2,
             srv1 ++ [insert_marker (LinkMarker.interactive_marker_ this2)])
       /\ LinkMarker.visual_control_ this2 = Some c
       /\ length (markers c) = 1%nat.
Proof.
  split; [reflexivity |].
  apply (link_visibility_toggle_recreates (conv := plain_conversions)
           (sample_env JointRevolute true false)
           (sample_env JointRevolute true true)
           sample_link_marker []
           (sample_link [1; 2]%positive) (sample_link [1; 2]%positive)
           2%positive).
  - eexists; reflexivity.
  - reflexivity.
  - reflexivity.
  - reflexivity.
  - right; left; reflexivity.
  - reflexivity.
Defined.

(** C4 fails on the code: after the recreating first tick in the scene
    whose second geometry is hidden, that geometry is in the link's list
    and has no entry in the map. *)
Lemma hidden_geometry_has_no_entry :
  LinkMarker.EnvironmentSync (conv := plain_conversions)
    (sample_env JointRevolute true false) sample_link_marker []
  = (Some synced_link_marker,
     [insert_marker (LinkMarker.interactive_marker_ synced_link_marker)])
  /\ In 2%positive (Link.GetGeometries (sample_link [1; 2]%positive))
  /\ LinkMarker.geometry_markers_ synced_link_marker !! 2%positive = None
  /\ LinkMarker.geometry_markers_ synced_link_marker !! 1%positive
     = Some address_of_back.
Proof.
  split; [reflexivity |]. split; [right; left; reflexivity |].
  split; reflexivity.
Qed.

Lemma link_recreation_maps_visible_geometries_witness :
  is_changed (sample_env JointRevolute true true) synced_link_marker
    (sample_link [1; 2]%positive) = true
  /\ exists this' c,
       LinkMarker.EnvironmentSync (conv := plain_conversions)
         (sample_env JointRevolute true true) synced_link_marker []
       = (Some this',
          [insert_marker (LinkMarker.interactive_marker_ this')])
       /\ LinkMarker.visual_control_ this' = Some c
       /\ LinkMarker.geometry_markers_ this' !! 2%positive = Some NULL.
Proof.
  split; [reflexivity |].
  destruct (link_recreation_maps_visible_geometries (conv := plain_conversions)
              (sample_env JointRevolute true true) synced_link_marker []
              (sample_link [1; 2]%positive))
    as (this' & c & Hsync & Hc & _ & Hentries).
  - eexists; reflexivity.
  - reflexivity.
  - reflexivity.
  - exists this', c. split; [exact Hsync |]. split; [exact Hc |].
    apply (Hentries 2%positive); [right; left; reflexivity | reflexivity].
Defined.

(** C8 fails on the code: the marker was synced in render mode [kVisual];
    after [SetRenderMode kCollision] the next tick in the unchanged scene
    sends [setPose] only. *)
Lemma render_mode_change_does_not_recreate :
  LinkMarker.render_mode_ synced_link_marker = kVisual
  /\ LinkMarker.EnvironmentSync (conv := plain_conversions)
       (sample_env JointRevolute true false)
       (LinkMarker.SetRenderMode kCollision synced_link_marker) []
     = (Some (LinkMarker.SetRenderMode kCollision synced_link_marker),
        [setPose "Environment[1].KinBody[arm].Link[forearm]"
           (mkPose (mkPoint 0 0 0) (mkQuaternion 0 0 0 1))]).
Proof. split; reflexivity. Qed.

Lemma inert_joint_first_sync_registers_witness :
  controllable (sample_joint JointPrismatic) = false
  /\ exists this this',
       JointMarker.JointMarker (conv := plain_conversions)
         (sample_env JointPrismatic true false) 10%positive []
       = (Some this, [])
       /\ JointMarker.marker_ this = InteractiveMarker_default
       /\ JointMarker.EnvironmentSync (conv := plain_conversions)
            (sample_env JointPrismatic true false) this []
          = (Some (false, this'),
             [insert_marker InteractiveMarker_default;
              setPose ""
                (@toROSPose plain_conversions
                   (JointMarker.GetJointPose (conv := plain_conversions)
                      (sample_joint JointPrismatic)))]).
Proof.
  split; [reflexivity |].
  apply (inert_joint_first_sync_registers (conv := plain_conversions)
           (sample_env JointPrismatic true false) 10%positive
           (sample_joint JointPrismatic) []); reflexivity.
Defined.

Lemma joint_angle_follows_joint_when_idle_witness :
  JointMarker.joint (sample_env JointRevolute true false)
    (sample_joint_marker JointRevolute) = Some (sample_joint JointRevolute)
  /\ JointMarker.active_ (sample_joint_marker JointRevolute) = false
  /\ JointMarker.active_ dragged_joint_marker = true
  /\ (exists this',
        JointMarker.EnvironmentSync (conv := plain_conversions)
          (sample_env JointRevolute true false)
          (sample_joint_marker JointRevolute) []
        = (Some (false, this'),
           joint_sync_calls (conv := plain_conversions)
             (sample_joint_marker JointRevolute))
        /\ JointMarker.angle this' = 0.5%Q)
  /\ (exists this' srv',
        JointMarker.step (conv := plain_conversions)
          (JointMarker.op_EnvironmentSync (sample_env JointRevolute true false))
          dragged_joint_marker [] = (Some this', srv')
        /\ JointMarker.angle this' = JointMarker.angle dragged_joint_marker).
Proof.
  split; [reflexivity |]. split; [reflexivity |]. split; [reflexivity |].
  split.
  - destruct (joint_angle_follows_joint_when_idle (conv := plain_conversions)
                (sample_env JointRevolute true false)
                (sample_joint_marker JointRevolute) []
                (sample_joint JointRevolute) eq_refl)
      as [(this' & Hsync & Hidle & _) _].
    exists this'. split; [exact Hsync |]. exact (proj1 (Hidle eq_refl)).
  - destruct (joint_angle_follows_joint_when_idle (conv := plain_conversions)
                (sample_env JointRevolute true false)
                dragged_joint_marker []
                (sample_joint JointRevolute) eq_refl)
      as [_ Hdrag].
    destruct (Hdrag eq_refl
                (JointMarker.op_EnvironmentSync
                   (sample_env JointRevolute true false)) [])
      as (this' & srv' & Hstep & Hangle).
    exists this', srv'. split; [exact Hstep | exact (Hangle eq_refl)].
Defined.

Lemma joint_pose_frozen_during_drag_witness :
  exists this' srv',
    JointMarker.run (conv := plain_conversions)
      [JointMarker.op_EnvironmentSync (sample_env JointRevolute true false);
       JointMarker.op_set_pose identity_transform;
       JointMarker.op_JointCallback (mkFeedback POSE_UPDATE zero_pose);
       JointMarker.op_EnvironmentSync expired_env]
      (JointMarker.JointCallback (conv := plain_conversions)
         (mkFeedback MOUSE_DOWN zero_pose) (sample_joint_marker JointRevolute))
      []
    = (Some this', srv')
    /\ JointMarker.joint_pose_ this'
       = JointMarker.joint_pose_ (sample_joint_marker JointRevolute)
    /\ JointMarker.active_ this' = true.
Proof.
  apply (joint_pose_frozen_during_drag (conv := plain_conversions)
           _ (sample_joint_marker JointRevolute) []
           (mkFeedback MOUSE_DOWN zero_pose)); reflexivity.
Defined.
(** * Further properties *)

(** ** JointMarker: construction, ticks, feedback *)

Section JointMarkerMore.
Context `{conv : !ORConversions}.

(** The calls of a tick are sent whether or not the tick returns. *)
Lemma joint_sync_calls_sent (env : Environment) (this : JointMarker.t)
    (srv : Server) :
  snd (JointMarker.EnvironmentSync env this srv) = srv ++ joint_sync_calls this.
Proof. now rewrite joint_sync_unfold. Qed.

Lemma joint_sync_returned (env : Environment) (this this' : JointMarker.t)
    (srv srv' : Server) (r : bool) :
  JointMarker.EnvironmentSync env this srv = (Some (r, this'), srv') ->
  exists live, this' = joint_synced live this.
Proof.
  rewrite joint_sync_unfold. destruct (JointMarker.active_ this).
  - intros [= _ <- _]. now eexists.
  - destruct (JointMarker.joint env this); [| discriminate].
    intros [= _ <- _]. now eexists.
Qed.

(** X1. On a live revolute joint that is neither static nor mimic, the
    constructor sends [insert] of the marker and [setCallback]; the marker is
    named by [id()], stands in the default world frame at the joint pose and
    has the single control [rotate].  The first tick afterwards, in whatever
    scene, inserts the same marker a second time before it sets the pose. *)
Theorem joint_constructor_then_first_sync
    (env env' : Environment) (a : addr) (j : Joint.t) (srv : Server) :
  joints env !! a = Some j ->
  controllable j = true ->
  exists this,
    let m :=
      mkInteractiveMarker kDefaultWorldFrameId
        (joint_id_string (Joint.EnvironmentId j) (Joint.ParentName j)
           (Joint.GetName j))
        "" (toROSPose (JointMarker.GetJointPose j)) 0.25%Q
        [JointMarker.rotate_control] in
    JointMarker.JointMarker env a srv
    = (Some this, srv ++ [insert_marker m; setCallback (name m)])
    /\ JointMarker.marker_ this = m
    /\ JointMarker.angle this = Joint.GetValue0 j
    /\ snd (JointMarker.EnvironmentSync env' this
              (srv ++ [insert_marker m; setCallback (name m)]))
       = srv ++ [insert_marker m; setCallback (name m);
                 insert_marker m; setPose (name m) (im_pose m)].
Proof.
  intros Hj Hc. unfold controllable in Hc.
  apply andb_prop in Hc as [Hc Hmimic]. apply andb_prop in Hc as [Hrev Hstatic].
  apply negb_true_iff in Hmimic, Hstatic.
  eexists. cbv zeta.
  unfold JointMarker.JointMarker, JointMarker.id, JointMarker.joint,
    bind, deref, ret, call. cbn.
  rewrite Hj, Hrev, Hstatic, Hmimic. cbn.
  split; [rewrite <- app_assoc; reflexivity |].
  split; [reflexivity |].
  split; [apply dReal_plus_0_r |].
  rewrite joint_sync_calls_sent. unfold joint_sync_calls. cbn.
  rewrite <- app_assoc. reflexivity.
Qed.

(** X2. After a tick that returned, the next tick, in whatever scene, sends
    exactly one call, [setPose] with the marker's name and handle pose; it
    inserts nothing. *)
Theorem joint_sync_after_sync_only_sets_pose
    (env1 env2 : Environment) (this this1 : JointMarker.t)
    (srv srv1 : Server) (r : bool) :
  JointMarker.EnvironmentSync env1 this srv = (Some (r, this1), srv1) ->
  snd (JointMarker.EnvironmentSync env2 this1 srv1)
  = srv1 ++ [setPose (name (JointMarker.marker_ this))
                     (toROSPose (JointMarker.pose this))].
Proof.
  intros Hfirst. destruct (joint_sync_returned _ _ _ _ _ _ Hfirst) as [live ->].
  rewrite joint_sync_calls_sent. reflexivity.
Qed.

(** X3. [set_parent_frame] changes the frame of the marker and nothing else
    of it, leaves the angle and the handle pose, and makes the next tick
    insert the marker in the new frame before it sets the pose. *)
Theorem joint_set_parent_frame_reinserts
    (env : Environment) (this : JointMarker.t) (frame : string) (srv : Server) :
  let m := JointMarker.marker_ this in
  let m' :=
    mkInteractiveMarker frame (name m) (description m) (im_pose m) (scale m)
      (controls m) in
  JointMarker.marker_ (JointMarker.set_parent_frame frame this) = m'
  /\ JointMarker.angle (JointMarker.set_parent_frame frame this)
     = JointMarker.angle this
  /\ JointMarker.pose (JointMarker.set_parent_frame frame this)
     = JointMarker.pose this
  /\ snd (JointMarker.EnvironmentSync env
            (JointMarker.set_parent_frame frame this) srv)
     = srv ++ [insert_marker m';
               setPose (name m) (toROSPose (JointMarker.pose this))].
Proof.
  cbv zeta. repeat split.
  rewrite joint_sync_calls_sent. unfold joint_sync_calls. cbn.
  reflexivity.
Qed.

(** X4. A drag, from start to end.  A pose update sets the angle to the
    angle held at the last idle tick minus the third component of the
    axis-angle form of the drag rotation taken relative to the handle pose;
    ticks during the drag keep that angle; after mouse-up the next tick on
    the live joint puts the angle back to the joint's value, so the dragged
    amount is gone unless the owner has applied it to the joint. *)
Theorem joint_drag_cycle
    (env : Environment) (this : JointMarker.t) (srv : Server) (j : Joint.t)
    (down update up : InteractiveMarkerFeedback) :
  event_type down = MOUSE_DOWN ->
  event_type update = POSE_UPDATE ->
  event_type up = MOUSE_UP ->
  JointMarker.joint env this = Some j ->
  let dragged :=
    JointMarker.JointCallback update (JointMarker.JointCallback down this) in
  let delta :=
    (- vz (axisAngleFromQuat
             (rot (transform_mul (transform_inverse (JointMarker.pose this))
                                 (toORPose (feedback_pose update))))))%Q in
  JointMarker.angle dragged = (JointMarker.joint_initial_ this + delta)%Q
  /\ (exists during srv1,
        JointMarker.EnvironmentSync env dragged srv = (Some (false, during), srv1)
        /\ JointMarker.angle during = JointMarker.angle dragged
        /\ exists released srv2,
             JointMarker.EnvironmentSync env
               (JointMarker.JointCallback up during) srv1
             = (Some (false, released), srv2)
             /\ JointMarker.angle released = Joint.GetValue0 j
             /\ JointMarker.active_ released = false).
Proof.
  intros Hdown Hupdate Hup Hlive. cbv zeta.
  assert (Hd : JointMarker.JointCallback down this
               = JointMarker.set_active_ true this).
  { unfold JointMarker.JointCallback. now rewrite Hdown. }
  assert (Hu : forall that, JointMarker.JointCallback up that
                            = JointMarker.set_active_ false that).
  { intros that. unfold JointMarker.JointCallback. now rewrite Hup. }
  assert (Hp : forall that,
             JointMarker.JointCallback update that
             = JointMarker.set_joint_delta_
                 (- vz (axisAngleFromQuat
                          (rot (transform_mul
                                  (transform_inverse (JointMarker.pose that))
                                  (toORPose (feedback_pose update))))))%Q that).
  { intros that. unfold JointMarker.JointCallback. now rewrite Hupdate. }
  rewrite Hd, Hp.
  split; [reflexivity |].
  eexists _, _. split.
  { rewrite joint_sync_unfold. cbn. reflexivity. }
  split; [reflexivity |].
  eexists _, _. split.
  { rewrite joint_sync_unfold, Hu. cbn.
    unfold JointMarker.joint in *. cbn. rewrite Hlive. reflexivity. }
  split; [| reflexivity].
  apply joint_synced_angle_idle. reflexivity.
Qed.

(** X5. [set_pose] followed by a tick: the tick publishes the new pose when
    no drag is in progress and the old pose during a drag. *)
Theorem joint_set_pose_then_sync
    (env : Environment) (this : JointMarker.t) (p : Transform) (srv : Server) :
  snd (JointMarker.EnvironmentSync env (JointMarker.set_pose p this) srv)
  = srv
    ++ (if JointMarker.force_update_ this
        then [insert_marker (JointMarker.marker_ this)] else [])
    ++ [setPose (name (JointMarker.marker_ this))
          (toROSPose (if JointMarker.active_ this
                      then JointMarker.pose this else p))].
Proof.
  rewrite joint_sync_calls_sent. unfold joint_sync_calls, JointMarker.set_pose.
  destruct (JointMarker.active_ this); reflexivity.
Qed.

(** No operation changes the name of the marker, and the calls of one
    operation are about that name. *)
Lemma joint_step_name (op : JointMarker.Op) (this : JointMarker.t) (srv : Server) :
  (exists calls,
     snd (JointMarker.step op this srv) = srv ++ calls
     /\ Forall (fun c => call_name c = name (JointMarker.marker_ this)) calls)
  /\ (forall this', fst (JointMarker.step op this srv) = Some this' ->
        name (JointMarker.marker_ this') = name (JointMarker.marker_ this)).
Proof.
  destruct op as [env | p | f | fb]; cbn [JointMarker.step].
  - unfold bind. rewrite joint_sync_unfold. split.
    + exists (joint_sync_calls this). split.
      * destruct (JointMarker.active_ this); [reflexivity |].
        destruct (JointMarker.joint env this); reflexivity.
      * unfold joint_sync_calls.
        destruct (JointMarker.force_update_ this); repeat constructor.
    + intros this'. destruct (JointMarker.active_ this).
      * intros [= <-]. reflexivity.
      * destruct (JointMarker.joint env this); [| discriminate].
        intros [= <-]. reflexivity.
  - split.
    + exists []. split; [symmetry; apply app_nil_r | constructor].
    + intros this' [= <-]. unfold JointMarker.set_pose.
      destruct (JointMarker.active_ this); reflexivity.
  - split.
    + exists []. split; [symmetry; apply app_nil_r | constructor].
    + intros this' [= <-]. reflexivity.
  - split.
    + exists []. split; [symmetry; apply app_nil_r | constructor].
    + intros this' [= <-]. unfold JointMarker.JointCallback.
      destruct (event_type fb); reflexivity.
Qed.

(** X6. Through any sequence of ticks, setter calls and feedback events,
    and the destructor after it, every call the marker sends to the server is
    about the one name the marker was given at construction: the destructor
    erases the marker that the ticks inserted. *)
Theorem joint_calls_name_one_marker (ops : list JointMarker.Op) :
  forall (this : JointMarker.t) (srv : Server),
    exists calls,
      snd (JointMarker.run ops this srv) = srv ++ calls
      /\ Forall (fun c => call_name c = name (JointMarker.marker_ this)) calls
      /\ match fst (JointMarker.run ops this srv) with
         | Some this' =>
             JointMarker.destroy this' (srv ++ calls)
             = (Some tt, srv ++ calls ++ [erase (name (JointMarker.marker_ this))])
         | None => True
         end.
Proof.
  induction ops as [| op ops IH]; intros this srv.
  - exists []. cbn. rewrite app_nil_r. repeat split. constructor.
  - cbn [JointMarker.run]. unfold bind.
    destruct (joint_step_name op this srv) as [(calls1 & Hsnd & Hall1) Hname].
    destruct (JointMarker.step op this srv) as [[this1 |] srv1] eqn:Hstep;
      cbn in Hsnd; subst srv1.
    + specialize (Hname this1 eq_refl).
      destruct (IH this1 (srv ++ calls1)) as (calls2 & Hsnd2 & Hall2 & Hd).
      exists (calls1 ++ calls2). rewrite Hsnd2, <- app_assoc.
      split; [reflexivity |]. split.
      * apply Forall_app. split; [exact Hall1 |].
        rewrite <- Hname. exact Hall2.
      * destruct (fst (JointMarker.run ops this1 (srv ++ calls1)));
          [| exact I].
        rewrite app_assoc, Hd, <- Hname, <- !app_assoc. reflexivity.
    + exists calls1. cbn. repeat split; assumption.
Qed.

End JointMarkerMore.

(** ** Identifiers *)

Section Identifiers.

Lemma joint_id_unfold (env : Environment) (this : JointMarker.t) (srv : Server) :
  JointMarker.id env this srv
  = (option_map (fun j => joint_id_string (Joint.EnvironmentId j)
                            (Joint.ParentName j) (Joint.GetName j))
       (JointMarker.joint env this), srv).
Proof.
  unfold JointMarker.id, bind, deref, ret.
  destruct (JointMarker.joint env this); reflexivity.
Qed.

Lemma link_id_unfold (env : Environment) (this : LinkMarker.t) (srv : Server) :
  LinkMarker.id env this srv
  = (option_map (fun l => link_id_string (Link.EnvironmentId l)
                            (Link.ParentName l) (Link.GetName l))
       (LinkMarker.link env this), srv).
Proof.
  unfold LinkMarker.id, bind, deref, ret.
  destruct (LinkMarker.link env this); reflexivity.
Qed.

Lemma string_app_assoc (a b c : string) : (a +:+ b) +:+ c = a +:+ (b +:+ c).
Proof.
  induction a as [| ch a IH]; [reflexivity |].
  change (String ch ((a +:+ b) +:+ c) = String ch (a +:+ (b +:+ c))).
  now rewrite IH.
Qed.

Lemma string_app_length (a b : string) :
  String.length (a +:+ b) = (String.length a + String.length b)%nat.
Proof.
  induction a as [| ch a IH]; [reflexivity |].
  change (S (String.length (a +:+ b)) = S (String.length a + String.length b)).
  now rewrite IH.
Qed.

(** A common suffix can be cancelled. *)
Lemma string_app_inj_r (c : string) : forall a b : string,
  a +:+ c = b +:+ c -> a = b.
Proof.
  induction a as [| x a IH]; intros [| y b] Heq.
  - reflexivity.
  - apply (f_equal String.length) in Heq.
    rewrite !string_app_length in Heq. simpl in Heq. lia.
  - apply (f_equal String.length) in Heq.
    rewrite !string_app_length in Heq. simpl in Heq. lia.
  - simpl in Heq. injection Heq as -> Heq. f_equal. now apply IH.
Qed.

(** X7. Within one body of one environment, two joint markers with the same
    identifier are on joints of the same name, and no joint marker has the
    identifier of a link marker. *)
Theorem marker_ids_within_a_body
    (env : Environment) (t1 t2 : JointMarker.t) (t3 : LinkMarker.t)
    (j1 j2 : Joint.t) (l : Link.t) (srv : Server) :
  JointMarker.joint env t1 = Some j1 ->
  JointMarker.joint env t2 = Some j2 ->
  LinkMarker.link env t3 = Some l ->
  Joint.EnvironmentId j2 = Joint.EnvironmentId j1 ->
  Joint.ParentName j2 = Joint.ParentName j1 ->
  Link.EnvironmentId l = Joint.EnvironmentId j1 ->
  Link.ParentName l = Joint.ParentName j1 ->
  (JointMarker.id env t1 srv = JointMarker.id env t2 srv ->
   Joint.GetName j1 = Joint.GetName j2)
  /\ fst (JointMarker.id env t1 srv) <> fst (LinkMarker.id env t3 srv).
Proof.
  intros H1 H2 H3 He Hb Hel Hbl.
  rewrite !joint_id_unfold, link_id_unfold, H1, H2, H3. cbn.
  unfold joint_id_string, link_id_string. rewrite He, Hb, Hel, Hbl. split.
  - intros [= Heq]. repeat apply String.app_inj in Heq.
    now apply string_app_inj_r in Heq.
  - intros [= Heq]. repeat apply String.app_inj in Heq. discriminate.
Qed.

(** X8. The identifier does not separate its parts: text of the form
    [].Joint[] can pass between the body name and the joint name, so two
    joints of differently named bodies can have one identifier. *)
Theorem joint_id_not_injective
    (env : Environment) (t1 t2 : JointMarker.t) (j1 j2 : Joint.t)
    (b x y : string) (srv : Server) :
  JointMarker.joint env t1 = Some j1 ->
  JointMarker.joint env t2 = Some j2 ->
  Joint.EnvironmentId j2 = Joint.EnvironmentId j1 ->
  Joint.ParentName j1 = b ->
  Joint.GetName j1 = x +:+ "].Joint[" +:+ y ->
  Joint.ParentName j2 = b +:+ "].Joint[" +:+ x ->
  Joint.GetName j2 = y ->
  JointMarker.id env t1 srv = JointMarker.id env t2 srv.
Proof.
  intros H1 H2 He Hb1 Hn1 Hb2 Hn2.
  rewrite !joint_id_unfold, H1, H2. cbn. unfold joint_id_string.
  rewrite He, Hb1, Hn1, Hb2, Hn2. do 3 f_equal.
  rewrite !string_app_assoc. reflexivity.
Qed.

End Identifiers.

(** ** LinkMarker: construction, recreation, what a tick keeps *)

Section LinkMarkerMore.
Context `{conv : !ORConversions}.

(** On an empty map the scan reports a change exactly when some listed
    geometry is visible. *)
Lemma scan_geometries_empty (env : Environment) (gs : list addr) :
  LinkMarker.scan_geometries env ∅ gs false = existsb (visible env) gs.
Proof.
  induction gs as [| g gs IH]; cbn; [reflexivity |].
  rewrite lookup_empty. unfold visible at 1.
  destruct (Geometry.IsVisible (geometries env g)); cbn; [reflexivity | exact IH].
Qed.

(** The loop of [CreateGeometry()] appends the primitives of the visible
    listed geometries in the order of the list. *)
Lemma CreateGeometry_loop_primitives (env : Environment) (ghost : bool)
    (gs : list addr) :
  forall (ms : list Marker) (gm : gmap addr MarkerAddress),
    fst (LinkMarker.CreateGeometry_loop env ghost gs ms gm)
    = ms ++ primitives_of env ghost gs.
Proof.
  unfold primitives_of, visible.
  induction gs as [| g gs IH]; intros ms gm; cbn.
  - now rewrite app_nil_r.
  - destruct (Geometry.IsVisible (geometries env g)); cbn; [| apply IH].
    destruct (LinkMarker.CreateGeometry_geometry ghost (geometries env g));
      cbn; rewrite IH; [now rewrite <- app_assoc | reflexivity].
Qed.

(** X9. The constructor of a link marker sends nothing: the marker it
    builds is named by [id()], stands in the frame [/world] at the link's
    transform and has one control without primitives, and the map is empty.
    The first tick then inserts the marker exactly when some listed geometry
    is visible; for a link without visible geometry it only sets the pose of
    a marker that was never inserted. *)
Theorem link_constructor_then_first_sync
    (env env' : Environment) (a : addr) (ghost : bool) (srv : Server)
    (l l' : Link.t) :
  links env !! a = Some l ->
  links env' !! a = Some l' ->
  exists this c,
    LinkMarker.LinkMarker env a ghost srv = (Some this, srv)
    /\ LinkMarker.interactive_marker_ this
       = mkInteractiveMarker kWorldFrameId
           (link_id_string (Link.EnvironmentId l) (Link.ParentName l)
              (Link.GetName l))
           "" (toROSPose (Link.GetTransform l)) 0.25%Q [c]
    /\ markers c = []
    /\ LinkMarker.geometry_markers_ this = ∅
    /\ LinkMarker.EnvironmentSync env' this srv
       = if existsb (visible env') (Link.GetGeometries l')
         then (Some (recreated env' this c l'),
               srv ++ [insert_marker
                         (LinkMarker.interactive_marker_
                            (recreated env' this c l'))])
         else (Some this,
               srv ++ [setPose (name (LinkMarker.interactive_marker_ this))
                               (toROSPose (Link.GetTransform l'))]).
Proof.
  intros Hl Hl'.
  eexists _, _. split.
  { unfold LinkMarker.LinkMarker, LinkMarker.id, LinkMarker.link,
      bind, deref, ret. cbn. rewrite Hl. cbn. reflexivity. }
  split; [reflexivity |]. split; [reflexivity |]. split; [reflexivity |].
  erewrite link_sync_unfold; [| reflexivity | exact Hl'].
  unfold is_changed. cbn [LinkMarker.geometry_markers_].
  rewrite scan_geometries_empty. reflexivity.
Qed.

(** X10. After a tick that recreates, the control holds exactly the
    primitives of the visible listed geometries, in the order of the link's
    list, whatever it held before. *)
Theorem link_recreation_primitives_in_order
    (env : Environment) (this : LinkMarker.t) (srv : Server) (l : Link.t) :
  wf this ->
  LinkMarker.link env this = Some l ->
  is_changed env this l = true ->
  exists this' c,
    LinkMarker.EnvironmentSync env this srv
    = (Some this',
       srv ++ [insert_marker (LinkMarker.interactive_marker_ this')])
    /\ LinkMarker.visual_control_ this' = Some c
    /\ markers c
       = primitives_of env (LinkMarker.is_ghost_ this) (Link.GetGeometries l).
Proof.
  intros [c Hc] Hl Hch.
  destruct (recreated_fields env this c l Hc) as (_ & _ & _ & Hvc).
  eexists _, _. rewrite (link_sync_unfold env this srv c l Hc Hl), Hch.
  split; [reflexivity |]. split; [exact Hvc |].
  cbn [markers LinkMarker.set_markers].
  now rewrite CreateGeometry_loop_primitives.
Qed.

(** The primitive of a ghost has the ghost colour and no embedded
    materials. *)
Lemma CreateGeometry_geometry_ghost (g : Geometry.t) (m : Marker) :
  LinkMarker.CreateGeometry_geometry true g = Some m ->
  marker_color m = toROSColor LinkMarker.kGhostColor
  /\ mesh_use_embedded_materials m = false.
Proof.
  unfold LinkMarker.CreateGeometry_geometry.
  destruct (negb _).
  - intros [= <-]. split; reflexivity.
  - destruct (Geometry.GetType g); intros [= <-]; split; reflexivity.
Qed.

Lemma primitives_of_ghost (env : Environment) (gs : list addr) :
  Forall (fun m => marker_color m = toROSColor LinkMarker.kGhostColor
                   /\ mesh_use_embedded_materials m = false)
    (primitives_of env true gs).
Proof.
  unfold primitives_of.
  induction gs as [| g gs IH]; cbn; [constructor |].
  destruct (visible env g); [| exact IH].
  destruct (LinkMarker.CreateGeometry_geometry true (geometries env g))
    as [m |] eqn:Hm; [| exact IH].
  constructor; [now apply CreateGeometry_geometry_ghost in Hm | exact IH].
Qed.

(** X11. After a tick that recreates a ghost marker, every primitive of the
    control has the fixed ghost colour and does not use embedded materials,
    whatever the colours and transparencies of the geometries. *)
Theorem link_ghost_primitives_have_ghost_colour
    (env : Environment) (this : LinkMarker.t) (srv : Server) (l : Link.t) :
  wf this ->
  LinkMarker.link env this = Some l ->
  is_changed env this l = true ->
  LinkMarker.is_ghost_ this = true ->
  exists this' c,
    LinkMarker.EnvironmentSync env this srv
    = (Some this',
       srv ++ [insert_marker (LinkMarker.interactive_marker_ this')])
    /\ LinkMarker.visual_control_ this' = Some c
    /\ Forall (fun m => marker_color m = toROSColor LinkMarker.kGhostColor
                        /\ mesh_use_embedded_materials m = false)
         (markers c).
Proof.
  intros [c Hc] Hl Hch Hghost.
  destruct (recreated_fields env this c l Hc) as (_ & _ & _ & Hvc).
  eexists _, _. rewrite (link_sync_unfold env this srv c l Hc Hl), Hch.
  split; [reflexivity |]. split; [exact Hvc |].
  cbn [markers LinkMarker.set_markers].
  rewrite CreateGeometry_loop_primitives, Hghost. cbn [app].
  apply primitives_of_ghost.
Qed.

(** X12. A render filename decides before the geometry type does.  The
    primitive is a mesh reference exactly when the geometry has a render
    filename that is not empty and does not begin with the suppressing
    prefix, and then it refers to that file, whatever the geometry type; a
    filename with the suppressing prefix gives what no filename gives; and
    no primitive keeps the default type. *)
Theorem render_filename_precedes_geometry_type
    (ghost : bool) (g : Geometry.t) :
  LinkMarker.CreateGeometry_geometry ghost g
  = LinkMarker.CreateGeometry_geometry ghost
      (with_render_filename (effective_render_filename g) g)
  /\ match LinkMarker.CreateGeometry_geometry ghost g with
     | Some m =>
         marker_pose m = toROSPose (Geometry.GetTransform g)
         /\ marker_type m <> ARROW
         /\ if String.eqb (effective_render_filename g) ""
            then marker_type m <> MESH_RESOURCE /\ mesh_resource m = ""
            else marker_type m = MESH_RESOURCE
                 /\ mesh_resource m = "file://" +:+ Geometry.GetRenderFilename g
                 /\ marker_scale m = toROSVector (Geometry.GetRenderScale g)
                 /\ mesh_use_embedded_materials m = negb ghost
     | None =>
         effective_render_filename g = ""
         /\ match Geometry.GetType g with
            | GT_Box | GT_Sphere | GT_Cylinder => False
            | _ => True
            end
     end.
Proof.
  unfold LinkMarker.CreateGeometry_geometry, effective_render_filename.
  cbn [with_render_filename Geometry.GetRenderFilename Geometry.GetType
       Geometry.GetTransform Geometry.GetDiffuseColor Geometry.GetTransparency
       Geometry.GetRenderScale Geometry.GetBoxExtents Geometry.GetSphereRadius
       Geometry.GetCylinderRadius Geometry.GetCylinderHeight].
  destruct (String.prefix "__norenderif__" (Geometry.GetRenderFilename g)) eqn:Hp.
  - cbn. split; [reflexivity |].
    destruct (Geometry.GetType g); cbn; repeat split; discriminate.
  - rewrite Hp.
    destruct (String.eqb (Geometry.GetRenderFilename g) "") eqn:He; cbn.
    + split; [reflexivity |]. apply String.eqb_eq in He.
      destruct (Geometry.GetType g); cbn; repeat split;
        try discriminate; exact He.
    + split; [reflexivity |]. repeat split; discriminate.
Qed.

Lemma recreated_again (env : Environment) (this : LinkMarker.t)
    (c : InteractiveMarkerControl) (l : Link.t) :
  recreated env (recreated env this c l)
    (LinkMarker.set_markers
       (fst (LinkMarker.CreateGeometry_loop env (LinkMarker.is_ghost_ this)
               (Link.GetGeometries l) [] ∅)) c) l
  = recreated env this c l.
Proof.
  destruct this as [a ghost im rm gm].
  unfold recreated, LinkMarker.store_visual_control_,
    LinkMarker.set_geometry_markers_, LinkMarker.set_interactive_marker_,
    LinkMarker.set_controls, LinkMarker.set_markers.
  cbn [LinkMarker.link_ LinkMarker.is_ghost_ LinkMarker.interactive_marker_
       LinkMarker.render_mode_ LinkMarker.geometry_markers_
       header_frame_id name description im_pose scale controls
       control_name control_orientation orientation_mode interaction_mode
       always_visible markers].
  rewrite !list_insert_insert_eq. reflexivity.
Qed.

(** X13. Recreation is idempotent in what the server and the change
    detection see: [CreateGeometry()] sends nothing, and run again in the
    same scene it returns with the same marker (the same primitives in the
    same order), the same link, ghost flag and render mode, and a map with
    the same keys and the null pointer at the same keys.  The addresses
    stored for the other keys are not compared: the storage of the vector
    may have moved between the runs. *)
Theorem CreateGeometry_idempotent
    (env : Environment) (this this1 : LinkMarker.t) (srv srv1 : Server) :
  LinkMarker.CreateGeometry env this srv = (Some this1, srv1) ->
  srv1 = srv
  /\ exists this2,
       LinkMarker.CreateGeometry env this1 srv1 = (Some this2, srv1)
       /\ LinkMarker.interactive_marker_ this2
          = LinkMarker.interactive_marker_ this1
       /\ LinkMarker.link_ this2 = LinkMarker.link_ this1
       /\ LinkMarker.is_ghost_ this2 = LinkMarker.is_ghost_ this1
       /\ LinkMarker.render_mode_ this2 = LinkMarker.render_mode_ this1
       /\ (forall g,
             (is_Some (LinkMarker.geometry_markers_ this2 !! g)
              <-> is_Some (LinkMarker.geometry_markers_ this1 !! g))
             /\ (LinkMarker.geometry_markers_ this2 !! g = Some NULL
                 <-> LinkMarker.geometry_markers_ this1 !! g = Some NULL)).
Proof.
  intros Hfirst.
  destruct (LinkMarker.visual_control_ this) as [c |] eqn:Hc.
  2: { unfold LinkMarker.CreateGeometry, bind, deref in Hfirst.
       rewrite Hc in Hfirst. discriminate. }
  destruct (LinkMarker.link env this) as [l |] eqn:Hl.
  2: { unfold LinkMarker.CreateGeometry, bind, deref in Hfirst.
       rewrite Hc in Hfirst. unfold LinkMarker.link in *. cbn in Hfirst.
       rewrite Hl in Hfirst. discriminate. }
  rewrite (CreateGeometry_unfold env this srv c l Hc Hl) in Hfirst.
  injection Hfirst as <- <-. split; [reflexivity |].
  destruct (recreated_fields env this c l Hc) as (Hlink & _ & _ & Hvc).
  assert (Hl1 : LinkMarker.link env (recreated env this c l) = Some l).
  { unfold LinkMarker.link in *. now rewrite Hlink. }
  exists (recreated env this c l).
  rewrite (CreateGeometry_unfold env _ srv _ l Hvc Hl1), recreated_again.
  repeat split; intros Hg; exact Hg.
Qed.

(** X14. A geometry taken off the link's list is not noticed.  After a tick
    on the list of [l1], a tick on a list that has only geometries of that
    list, with their visibility as it was, sends [setPose] only and leaves
    the object, with the primitives of the geometries that are gone, as it
    is. *)
Theorem link_removed_geometry_is_not_detected
    (env1 env2 : Environment) (this : LinkMarker.t) (srv : Server)
    (l1 l2 : Link.t) :
  wf this ->
  LinkMarker.link env1 this = Some l1 ->
  LinkMarker.link env2 this = Some l2 ->
  (forall g, In g (Link.GetGeometries l2) ->
     In g (Link.GetGeometries l1) /\ visible env2 g = visible env1 g) ->
  exists this1 srv1,
    LinkMarker.EnvironmentSync env1 this srv = (Some this1, srv1)
    /\ LinkMarker.EnvironmentSync env2 this1 srv1
       = (Some this1,
          srv1 ++ [setPose (name (LinkMarker.interactive_marker_ this1))
                           (toROSPose (Link.GetTransform l2))]).
Proof.
  intros Hwf Hl1 Hl2 Hsub.
  destruct (link_sync_establishes_in_sync env1 this srv l1 Hwf Hl1)
    as (this1 & srv1 & Hfirst & [c1 Hc1] & Hlink & Hsync).
  exists this1, srv1. split; [exact Hfirst |].
  assert (Hl2' : LinkMarker.link env2 this1 = Some l2).
  { unfold LinkMarker.link in *. now rewrite Hlink. }
  rewrite (link_sync_unfold env2 this1 srv1 c1 l2 Hc1 Hl2').
  assert (Hch : is_changed env2 this1 l2 = false).
  { apply scan_geometries_false_iff. intros g Hin.
    destruct (Hsub g Hin) as [Hin1 ->]. now apply Hsync. }
  now rewrite Hch.
Qed.

(** X15. A tick that returns sends exactly one call, about the marker's
    name: [insert] or [setPose], never both.  It keeps the link, the ghost
    flag, the render mode, and the name, frame, description, pose and scale
    of the marker; so the marker inserted by a recreation carries the pose
    stored at construction, not the link's current transform. *)
Theorem link_sync_sends_one_call_and_keeps_header
    (env : Environment) (this this' : LinkMarker.t) (srv srv' : Server) :
  LinkMarker.EnvironmentSync env this srv = (Some this', srv') ->
  (exists c, srv' = srv ++ [c]
             /\ call_name c = name (LinkMarker.interactive_marker_ this)
             /\ match c with
                | insert_marker m =>
                    m = LinkMarker.interactive_marker_ this'
                    /\ im_pose m = im_pose (LinkMarker.interactive_marker_ this)
                | setPose _ _ => this' = this
                | _ => False
                end)
  /\ LinkMarker.link_ this' = LinkMarker.link_ this
  /\ LinkMarker.is_ghost_ this' = LinkMarker.is_ghost_ this
  /\ LinkMarker.render_mode_ this' = LinkMarker.render_mode_ this
  /\ LinkMarker.set_controls [] (LinkMarker.interactive_marker_ this')
     = LinkMarker.set_controls [] (LinkMarker.interactive_marker_ this)
  /\ length (controls (LinkMarker.interactive_marker_ this'))
     = length (controls (LinkMarker.interactive_marker_ this)).
Proof.
  destruct this as [a ghost im rm gm].
  unfold LinkMarker.EnvironmentSync, LinkMarker.CreateGeometry,
    LinkMarker.link, LinkMarker.visual_control_, bind, deref, ret, call.
  cbn. destruct (links env !! a) as [l |]; [| discriminate].
  destruct (LinkMarker.scan_geometries env gm (Link.GetGeometries l) false).
  - destruct (controls im !! 0%nat) as [c |]; [| discriminate].
    cbn. intros [= <- <-]. cbn. rewrite !length_insert.
    split; [| repeat split].
    eexists. split; [reflexivity |]. cbn. repeat split.
  - intros [= <- <-]. cbn.
    split; [| repeat split].
    eexists. split; [reflexivity |]. cbn. repeat split.
Qed.

End LinkMarkerMore.

(** ** SuperViewer: what one tick and many ticks do *)

Section SuperViewerMore.
Context `{conv : !ORConversions}.

(** The loop over the geometries of a link stops at the first geometry
    whose box has a number as first extent. *)
Lemma geometry_loop_find (env : Environment) (l : Link.t) (rest : list addr) :
  forall (pre : list addr) (this : SuperViewer.t),
    SuperViewer.for_range (length rest) (length pre)
      (SuperViewer.geometry_body env l (pre ++ rest)) this
    = (SuperViewer.Continue,
       match List.find
               (fun g => negb (extents_x_isnan
                                 (Geometry.ComputeAABB (geometries env g))))
               rest with
       | Some g =>
           SuperViewer.mk (SuperViewer.mutex_held this)
             (SuperViewer.displays this)
             (SuperViewer.shape_markers this
              ++ [(g, SuperViewer.markerMsg l (geometries env g))])
       | None => this
       end).
Proof.
  induction rest as [| g rest IH]; intros pre this; [reflexivity |].
  cbn [length SuperViewer.for_range List.find].
  unfold SuperViewer.geometry_body at 1, SuperViewer.at_.
  rewrite list_lookup_middle by reflexivity.
  destruct (extents_x_isnan (Geometry.ComputeAABB (geometries env g)));
    cbn [negb]; [| reflexivity].
  specialize (IH (pre ++ [g]) this).
  rewrite length_app, <- app_assoc in IH. cbn in IH.
  rewrite Nat.add_1_r in IH. exact IH.
Qed.

(** The loop over the bodies, in closed form: it does not throw, and it
    makes the shape marker of the first target, if there is one. *)
Lemma body_loop_first_target (env : Environment)
    (bodies : list SuperViewer.KinBody) (this : SuperViewer.t) :
  SuperViewer.for_range (length bodies) 0 (SuperViewer.body_body env bodies) this
  = (SuperViewer.Continue,
     SuperViewer.mk (SuperViewer.mutex_held this) (SuperViewer.displays this)
       (SuperViewer.shape_markers this
        ++ marker_for env (first_target env bodies))).
Proof.
  rewrite (for_range_one_iteration _ _ _ _ (body_body_never_continues env bodies)).
  destruct bodies as [| body bodies]; cbn [length first_target marker_for].
  { destruct this. cbn. now rewrite app_nil_r. }
  unfold SuperViewer.body_body, SuperViewer.at_. cbn [lookup list_lookup].
  rewrite (for_range_one_iteration _ _ _ _
             (link_body_never_continues env (SuperViewer.GetLinks body) 0)).
  destruct (SuperViewer.GetLinks body) as [| l links]; cbn [length].
  { destruct this. cbn. now rewrite app_nil_r. }
  unfold SuperViewer.link_body, SuperViewer.at_. cbn [lookup list_lookup].
  pose proof (geometry_loop_find env l (Link.GetGeometries l) []) as Hloop.
  cbn [app length] in Hloop. rewrite Hloop.
  destruct (List.find _ (Link.GetGeometries l)); cbn;
    [reflexivity | destruct this; cbn; now rewrite app_nil_r].
Qed.

(** X16. One tick in closed form.  It never throws, although the link is
    read at the index of the body.  When the display cannot be created it
    returns at once and leaves the environment mutex locked.  Otherwise it
    creates one display, makes a shape marker for one geometry at most (the
    first geometry of the first link of the first body whose box has a number
    as first extent; geometries before it whose extent is not a number are
    passed over) and unlocks the mutex. *)
Theorem superviewer_sync_closed_form
    (env : Environment) (bodies : list SuperViewer.KinBody)
    (display_created : bool) (this : SuperViewer.t) :
  SuperViewer.EnvironmentSync env bodies display_created this
  = (SuperViewer.Continue,
     if display_created
     then SuperViewer.mk (SuperViewer.mutex_held this)
            (S (SuperViewer.displays this))
            (SuperViewer.shape_markers this
             ++ marker_for env (first_target env bodies))
     else SuperViewer.mk (S (SuperViewer.mutex_held this))
            (SuperViewer.displays this) (SuperViewer.shape_markers this)).
Proof.
  unfold SuperViewer.EnvironmentSync.
  destruct display_created; cbn [negb]; [| reflexivity].
  rewrite body_loop_first_target. reflexivity.
Qed.

(** X17. Ticks accumulate: after [n] ticks in one scene the viewer holds
    [n] more displays and [n] more copies of the shape marker of the same
    geometry, and the mutex is as it was; no display and no shape marker is
    ever removed. *)
Theorem superviewer_ticks_accumulate
    (env : Environment) (bodies : list SuperViewer.KinBody) (n : nat) :
  forall this : SuperViewer.t,
    ticks n env bodies this
    = SuperViewer.mk (SuperViewer.mutex_held this)
        (n + SuperViewer.displays this)
        (SuperViewer.shape_markers this
         ++ concat (replicate n (marker_for env (first_target env bodies)))).
Proof.
  induction n as [| n IH]; intros this.
  - destruct this. cbn. now rewrite app_nil_r.
  - cbn [ticks]. unfold SuperViewer.EnvironmentSync. cbn [negb].
    rewrite body_loop_first_target, IH. cbn.
    rewrite <- app_assoc, Nat.add_succ_r. reflexivity.
Qed.

End SuperViewerMore.

(** ** LinkMarker::InferManipulator *)

Section InferManipulatorFacts.

(** X18. The chain search ends on every kinematic tree: when each single
    parent is nearer to the root than its child, a search started with more
    iterations than the depth of its starting link returns or aborts.  It
    need not end otherwise: from a link that is its own single parent, and is
    neither the base nor the searched link, it runs for ever. *)
Theorem search_chain_terminates_on_tree
    (P : addr -> list addr) (depth : addr -> nat) (link base : addr) :
  (forall a p, P a = [p] -> depth p < depth a) ->
  (forall curr fuel,
     depth curr < fuel -> search_chain fuel P link base curr <> OutOfFuel)
  /\ (forall (Q : addr -> list addr) (curr : addr),
        curr <> base -> curr <> link -> Q curr = [curr] ->
        forall fuel, search_chain fuel Q link base curr = OutOfFuel).
Proof.
  intros Htree. split.
  - intros curr fuel. revert curr.
    induction fuel as [| fuel IH]; intros curr Hdepth; [lia |].
    cbn. destruct (curr =? base)%positive; [discriminate |].
    destruct (curr =? link)%positive; [discriminate |].
    destruct (P curr) as [| parent [| ? ?]] eqn:Hp; try discriminate.
    apply IH. specialize (Htree curr parent Hp). lia.
  - intros Q curr Hb Hl Hself fuel.
    apply Pos.eqb_neq in Hb, Hl.
    induction fuel as [| fuel IH]; [reflexivity |].
    cbn. now rewrite Hb, Hl, Hself.
Qed.




(** X20. What the chain search finds.  The base link of a manipulator is
    never found on its chain; the end effector, when it is not the base, is
    found at once; and a search that reaches a link without parent, or with
    several parents, before it meets the base or the link aborts. *)
Theorem search_chain_ends
    (fuel : nat) (P : addr -> list addr) (link base curr : addr) :
  search_chain fuel P base base curr <> Returned true
  /\ (link <> base -> search_chain (S fuel) P link base link = Returned true)
  /\ (curr <> base -> curr <> link -> length (P curr) <> 1%nat ->
      search_chain (S fuel) P link base curr = Aborted).
Proof.
  split; [| split].
  - revert curr. induction fuel as [| fuel IH]; intros curr; cbn;
      [discriminate |].
    destruct (curr =? base)%positive; [discriminate |].
    destruct (P curr) as [| parent [| ? ?]]; try discriminate. apply IH.
  - intros Hne. cbn. apply Pos.eqb_neq in Hne. rewrite Hne.
    now rewrite Pos.eqb_refl.
  - intros Hb Hl Hlen. cbn. apply Pos.eqb_neq in Hb, Hl. rewrite Hb, Hl.
    destruct (P curr) as [| parent [| ? ?]]; try reflexivity.
    now destruct Hlen.
Qed.

End InferManipulatorFacts.

(** ** The further properties on the sample scenes *)

Lemma joint_constructor_then_first_sync_witness :
  controllable (sample_joint JointRevolute) = true
  /\ exists this,
       JointMarker.JointMarker (conv := plain_conversions)
         (sample_env JointRevolute true false) 10%positive []
       = (Some this,
          [insert_marker (JointMarker.marker_ this);
           setCallback "Environment[1].KinBody[arm].Joint[elbow]"])
       /\ snd (JointMarker.EnvironmentSync (conv := plain_conversions)
                 expired_env this
                 [insert_marker (JointMarker.marker_ this);
                  setCallback "Environment[1].KinBody[arm].Joint[elbow]"])
          = [insert_marker (JointMarker.marker_ this);
             setCallback "Environment[1].KinBody[arm].Joint[elbow]";
             insert_marker (JointMarker.marker_ this);
             setPose "Environment[1].KinBody[arm].Joint[elbow]"
               (mkPose (mkPoint 1 2 3) (mkQuaternion 0 1 0 0))].
Proof.
  split; [reflexivity |].
  destruct (joint_constructor_then_first_sync (conv := plain_conversions)
              (sample_env JointRevolute true false) expired_env 10%positive
              (sample_joint JointRevolute) [] eq_refl eq_refl)
    as (this & Hctor & Hm & _ & Hsync).
  exists this. rewrite Hm. split; [exact Hctor | exact Hsync].
Defined.

Lemma joint_sync_after_sync_only_sets_pose_witness :
  exists this1 srv1,
    JointMarker.EnvironmentSync (conv := plain_conversions)
      (sample_env JointRevolute true false)
      (sample_joint_marker JointRevolute) []
    = (Some (false, this1), srv1)
    /\ snd (JointMarker.EnvironmentSync (conv := plain_conversions)
              expired_env this1 srv1)
       = srv1 ++ [setPose "Environment[1].KinBody[arm].Joint[elbow]"
                    (mkPose (mkPoint 1 2 3) (mkQuaternion 0 1 0 0))].
Proof.
  eexists _, _. split; [reflexivity |].
  apply (joint_sync_after_sync_only_sets_pose (conv := plain_conversions)
           (sample_env JointRevolute true false) expired_env
           (sample_joint_marker JointRevolute) _ [] _ false).
  reflexivity.
Defined.

Lemma joint_drag_cycle_witness :
  exists during srv1 released srv2,
    JointMarker.EnvironmentSync (conv := plain_conversions)
      (sample_env JointRevolute true false)
      (JointMarker.JointCallback (conv := plain_conversions)
         (mkFeedback POSE_UPDATE zero_pose) dragged_joint_marker) []
    = (Some (false, during), srv1)
    /\ JointMarker.EnvironmentSync (conv := plain_conversions)
         (sample_env JointRevolute true false)
         (JointMarker.JointCallback (conv := plain_conversions)
            (mkFeedback MOUSE_UP zero_pose) during) srv1
       = (Some (false, released), srv2)
    /\ JointMarker.angle released = 0.5%Q.
Proof.
  destruct (joint_drag_cycle (conv := plain_conversions)
              (sample_env JointRevolute true false)
              (sample_joint_marker JointRevolute) []
              (sample_joint JointRevolute)
              (mkFeedback MOUSE_DOWN zero_pose)
              (mkFeedback POSE_UPDATE zero_pose)
              (mkFeedback MOUSE_UP zero_pose)
              eq_refl eq_refl eq_refl eq_refl)
    as (_ & during & srv1 & Hduring & _ & released & srv2 & Hrel & Hangle & _).
  exists during, srv1, released, srv2.
  split; [exact Hduring |]. split; [exact Hrel | exact Hangle].
Defined.

Lemma marker_ids_within_a_body_witness :
  fst (JointMarker.id
         (two_joints_env "arm" "elbow" "arm" "wrist")
         (joint_marker_at 10%positive) [])
  <> fst (LinkMarker.id
            (two_joints_env "arm" "elbow" "arm" "wrist")
            blank_link_marker [])
  /\ (JointMarker.id
        (two_joints_env "arm" "elbow" "arm" "wrist")
        (joint_marker_at 10%positive) []
      = JointMarker.id
          (two_joints_env "arm" "elbow" "arm" "wrist")
          (joint_marker_at 11%positive) []
      -> "elbow" = "wrist").
Proof.
  destruct (marker_ids_within_a_body
              (two_joints_env "arm" "elbow" "arm" "wrist")
              (joint_marker_at 10%positive) (joint_marker_at 11%positive)
              blank_link_marker
              (named_joint "arm" "elbow") (named_joint "arm" "wrist")
              (sample_link [1; 2]%positive) []
              eq_refl eq_refl eq_refl eq_refl eq_refl eq_refl eq_refl)
    as [Hnames Hkinds].
  split; [exact Hkinds | exact Hnames].
Defined.

Lemma joint_id_not_injective_witness :
  JointMarker.id
    (two_joints_env "arm" "a].Joint[b" "arm].Joint[a" "b")
    (joint_marker_at 10%positive) []
  = JointMarker.id
      (two_joints_env "arm" "a].Joint[b" "arm].Joint[a" "b")
      (joint_marker_at 11%positive) [].
Proof.
  apply (joint_id_not_injective
           (two_joints_env "arm" "a].Joint[b" "arm].Joint[a" "b")
           (joint_marker_at 10%positive) (joint_marker_at 11%positive)
           (named_joint "arm" "a].Joint[b") (named_joint "arm].Joint[a" "b")
           "arm" "a" "b" []); reflexivity.
Defined.

Lemma link_constructor_then_first_sync_witness :
  exists this,
    LinkMarker.LinkMarker (conv := plain_conversions)
      (sample_env JointRevolute true false) 20%positive false []
    = (Some this, [])
    /\ LinkMarker.EnvironmentSync (conv := plain_conversions)
         (sample_env JointRevolute false false) this []
       = (Some this,
          [setPose "Environment[1].KinBody[arm].Link[forearm]"
             (mkPose (mkPoint 0 0 0) (mkQuaternion 0 0 0 1))]).
Proof.
  destruct (link_constructor_then_first_sync (conv := plain_conversions)
              (sample_env JointRevolute true false)
              (sample_env JointRevolute false false) 20%positive false []
              (sample_link [1; 2]%positive) (sample_link [1; 2]%positive)
              eq_refl eq_refl)
    as (this & c & Hctor & Hm & _ & _ & Hsync).
  exists this. split; [exact Hctor |].
  rewrite Hsync, Hm. reflexivity.
Defined.

Lemma link_recreation_primitives_in_order_witness :
  exists this' c,
    LinkMarker.EnvironmentSync (conv := plain_conversions)
      (sample_env JointRevolute true true) sample_link_marker []
    = (Some this', [insert_marker (LinkMarker.interactive_marker_ this')])
    /\ LinkMarker.visual_control_ this' = Some c
    /\ markers c
       = [mkMarker (mkPose (mkPoint 0 0 0) (mkQuaternion 0 0 0 1))
            (mkColor 1 0 0 1) CUBE (mkVector3 1 2 3) "" false].
Proof.
  apply (link_recreation_primitives_in_order (conv := plain_conversions)
           (sample_env JointRevolute true true) sample_link_marker []
           (sample_link [1; 2]%positive)).
  - eexists; reflexivity.
  - reflexivity.
  - reflexivity.
Defined.

Lemma link_ghost_primitives_have_ghost_colour_witness :
  exists this' c,
    LinkMarker.EnvironmentSync (conv := plain_conversions)
      (sample_env JointRevolute true true) ghost_link_marker []
    = (Some this', [insert_marker (LinkMarker.interactive_marker_ this')])
    /\ LinkMarker.visual_control_ this' = Some c
    /\ Forall (fun m => marker_color m = mkColor 0 1 0 0.2
                        /\ mesh_use_embedded_materials m = false)
         (markers c).
Proof.
  apply (link_ghost_primitives_have_ghost_colour (conv := plain_conversions)
           (sample_env JointRevolute true true) ghost_link_marker []
           (sample_link [1; 2]%positive)).
  - eexists; reflexivity.
  - reflexivity.
  - reflexivity.
  - reflexivity.
Defined.

Lemma CreateGeometry_idempotent_witness :
  exists this1 this2,
    LinkMarker.CreateGeometry (conv := plain_conversions)
      (sample_env JointRevolute true true) sample_link_marker []
    = (Some this1, [])
    /\ LinkMarker.CreateGeometry (conv := plain_conversions)
         (sample_env JointRevolute true true) this1 []
       = (Some this2, [])
    /\ LinkMarker.interactive_marker_ this2
       = LinkMarker.interactive_marker_ this1.
Proof.
  eexists.
  destruct (CreateGeometry_idempotent (conv := plain_conversions)
              (sample_env JointRevolute true true) sample_link_marker _ [] []
              eq_refl)
    as (_ & this2 & Hsecond & Hmarker & _).
  exists this2. split; [reflexivity |]. split; [exact Hsecond | exact Hmarker].
Defined.

Lemma link_removed_geometry_is_not_detected_witness :
  exists this1 srv1,
    LinkMarker.EnvironmentSync (conv := plain_conversions)
      (sample_env JointRevolute true true) sample_link_marker []
    = (Some this1, srv1)
    /\ LinkMarker.EnvironmentSync (conv := plain_conversions)
         shorter_env this1 srv1
       = (Some this1,
          srv1 ++ [setPose (name (LinkMarker.interactive_marker_ this1))
                     (@toROSPose plain_conversions identity_transform)]).
Proof.
  apply (link_removed_geometry_is_not_detected (conv := plain_conversions)
           (sample_env JointRevolute true true) shorter_env
           sample_link_marker []
           (sample_link [1; 2]%positive) (sample_link [1%positive])).
  - eexists; reflexivity.
  - reflexivity.
  - reflexivity.
  - intros g [<- | []]. split; [left; reflexivity | reflexivity].
Defined.

Lemma link_sync_sends_one_call_and_keeps_header_witness :
  let this' :=
    default blank_link_marker
      (fst (LinkMarker.EnvironmentSync (conv := plain_conversions)
              (sample_env JointRevolute true true) synced_link_marker [])) in
  LinkMarker.EnvironmentSync (conv := plain_conversions)
    (sample_env JointRevolute true true) synced_link_marker []
  = (Some this', [insert_marker (LinkMarker.interactive_marker_ this')])
  /\ im_pose (LinkMarker.interactive_marker_ this')
     = im_pose (LinkMarker.interactive_marker_ synced_link_marker)
  /\ LinkMarker.render_mode_ this' = kVisual.
Proof.
  intros this'.
  assert (Hsync :
    LinkMarker.EnvironmentSync (conv := plain_conversions)
      (sample_env JointRevolute true true) synced_link_marker []
    = (Some this', [insert_marker (LinkMarker.interactive_marker_ this')]))
    by reflexivity.
  split; [exact Hsync |].
  destruct (link_sync_sends_one_call_and_keeps_header
              (conv := plain_conversions)
              (sample_env JointRevolute true true) synced_link_marker this'
              [] _ Hsync)
    as (_ & _ & _ & Hmode & Hheader & _).
  split; [| exact Hmode].
  exact (f_equal im_pose Hheader).
Defined.

Lemma search_chain_terminates_on_tree_witness :
  search_chain 3 arm_parents 23%positive 20%positive 22%positive <> OutOfFuel.
Proof.
  destruct (search_chain_terminates_on_tree arm_parents arm_depth
              23%positive 20%positive) as [Hends _].
  - intros a p. unfold arm_parents, arm_depth.
    destruct (a =? 22)%positive eqn:H22.
    { apply Pos.eqb_eq in H22. subst a. intros [= <-]. cbn. lia. }
    destruct (a =? 21)%positive eqn:H21.
    { apply Pos.eqb_eq in H21. subst a. intros [= <-]. cbn. lia. }
    destruct (a =? 23)%positive eqn:H23; [| discriminate].
    intros [= <-]. cbn. lia.
  - apply Hends. cbn. lia.
Defined.


Lemma search_chain_ends_witness :
  search_chain 3 arm_parents 22%positive 20%positive 22%positive = Returned true
  /\ search_chain 3 arm_parents 21%positive 22%positive 20%positive = Aborted.
Proof.
  destruct (search_chain_ends 2 arm_parents 22%positive 20%positive 20%positive)
    as (_ & Hee & _).
  destruct (search_chain_ends 2 arm_parents 21%positive 22%positive 20%positive)
    as (_ & _ & Hroot).
  split.
  - apply Hee. discriminate.
  - apply Hroot; [discriminate | discriminate | cbn; discriminate].
Defined.
